(** * Grade computation of [calculate_grades.py]

    A shallow embedding of the three functions of the script
    ([calculate_late_penalty], [process_assignment_category],
    [calculate_grade]) and the properties of the grading pipeline.

    Modelling conventions.
    - Python [int] is [Z]; Python numbers that may be [float] (scores,
      weights, rates, thresholds) are rationals [Q], compared with [==].
      The three functions take their arithmetic exact; the functions of
      a category are given a second time with the four operations as a
      parameter, for what depends on how the program rounds.
    - A value that may be [None] or a string is [option string].
    - A dict whose iteration order matters is an association list in
      insertion order.
    - Exceptions and output are explicit: a computation yields the trace
      of what it printed so far and either an exception or a value. *)

From Stdlib Require Import ZArith QArith Qminmax Qround Lia List Bool.
From Stdlib Require Import String Ascii Permutation Sorted.
Import ListNotations.

Local Open Scope string_scope.
Local Open Scope list_scope.
Local Open Scope Z_scope.

(** ** Exceptions, output and the computation monad *)

Inductive exn : Type :=
| ValueError (msg : string)
| TypeError (msg : string)
| KeyError (key : string)
| ZeroDivisionError.

Record PenaltyResult : Type := mkPenaltyResult
  { days_late : Z;
    penalty : Q }.

Record AssignmentScore : Type := mkAssignmentScore
  { name : string;
    original_score : Q;
    adjusted_score : Q;
    a_days_late : Z }.

(** The [rich] table of a category: its heading and one row per counted
    assignment, in row order.  The cells are kept as the values they are
    formatted from. *)
Record Table : Type := mkTable
  { table_title : string;
    table_rows : list AssignmentScore }.

(** One item per [print]/[console.print] call, carrying the values that
    the call formats. *)
Inductive event : Type :=
| Stderr (line : string)
| ReportHeader (student_name student_id : string)
| ProjectHeading
| OriginalScoreLine (score : Q)
| DaysLateLine (days : Z)
| WeightLine (category : string) (weight : Q)
| ContributionLine (score : Q)
| CategoryHeading (category : string)
| TableOut (t : Table)
| SummaryHeading
| FinalScoreLine (total : Q)
| LetterGradeLine (letter : string)
| PolicyHeading
| LatePenaltyRateLine (rate : Q)
| MaxLatePenaltyLine (max_penalty : Q)
| QuizDropsLine (drops : option Z)
| WarningsHeading
| WarningLine (msg : string).

Definition M (A : Type) : Type := (list event * (exn + A))%type.

Definition ret {A} (a : A) : M A := ([], inr a).

Definition raise {A} (e : exn) : M A := ([], inl e).

Definition emit (ev : event) : M unit := ([ev], inr tt).

Definition bind {A B} (m : M A) (f : A -> M B) : M B :=
  match m with
  | (out, inl e) => (out, inl e)
  | (out, inr a) => let '(out', r) := f a in (out ++ out', r)
  end.

Notation "x <- m ;; k" := (bind m (fun x => k))
  (at level 61, m at next level, right associativity).
Notation "m ;;; k" := (bind m (fun _ => k))
  (at level 61, right associativity).

Definition output {A} (m : M A) : list event := fst m.
Definition result {A} (m : M A) : exn + A := snd m.

(** ** Python values used by the script *)

(** [None] or a [str]. *)
Definition pystr : Type := option string.

(** Truth value of a [None]-or-[str] value: [None] and [""] are false. *)
Definition truthy_str (v : pystr) : bool :=
  match v with
  | None => false
  | Some "" => false
  | Some _ => true
  end.

(** What an f-string shows for such a value. *)
Definition format_str (v : pystr) : string :=
  match v with
  | None => "None"
  | Some s => s
  end.

(** A dict as an association list in insertion order; [dict_get] is
    [d.get(k)], [None] when the key is absent. *)
Definition dict (V : Type) : Type := list (string * V).

Fixpoint dict_get {V} (k : string) (d : dict V) : option V :=
  match d with
  | [] => None
  | (k', v) :: d' => if String.eqb k k' then Some v else dict_get k d'
  end.

(** [s.replace(old, new)] for a one-character [old]. *)
Fixpoint str_replace (old : ascii) (new : string) (s : string) : string :=
  match s with
  | EmptyString => EmptyString
  | String c s' =>
      if Ascii.eqb c old then (new ++ str_replace old new s')%string
      else String c (str_replace old new s')
  end.

(** [s.title()] on ASCII text: a letter that follows no letter is made
    upper case, a letter that follows a letter lower case. *)
Definition is_lower (c : ascii) : bool :=
  let n := nat_of_ascii c in ((97 <=? n) && (n <=? 122))%nat.

Definition is_upper (c : ascii) : bool :=
  let n := nat_of_ascii c in ((65 <=? n) && (n <=? 90))%nat.

Fixpoint title_from (previous_is_cased : bool) (s : string) : string :=
  match s with
  | EmptyString => EmptyString
  | String c s' =>
      if is_lower c then
        String (if previous_is_cased then c
                else ascii_of_nat (nat_of_ascii c - 32)) (title_from true s')
      else if is_upper c then
        String (if previous_is_cased then ascii_of_nat (nat_of_ascii c + 32)
                else c) (title_from true s')
      else String c (title_from false s')
  end.

Definition str_title (s : string) : string := title_from false s.

(** [divmod] with a positive divisor: floor division, as in Python. *)
Definition divmod (a b : Z) : Z * Z := (a / b, a mod b).

(** ** The part of Python's [datetime] that the script calls

    [datetime.fromisoformat], subtraction of two [datetime] values and
    the [days] field of the resulting [timedelta] belong to the Python
    library.  The definitions of this module follow the library's
    reference implementation for the grammar
    [YYYY-MM-DD[*HH[:MM[:SS[.fff[fff]]]][(+|-)HH:MM[:SS[.ffffff]]]]],
    which every version that has [fromisoformat] accepts; components are
    plain decimal digits, and a string outside the grammar is refused
    (later versions of the library read some more forms).  The
    properties of the penalty below hold for whatever the parser
    returns: they only use the values that were parsed. *)
Module Datetime.

Record timedelta : Type := mkTimedelta
  { td_days : Z;
    td_seconds : Z;
    td_microseconds : Z }.

(** The constructor [timedelta(days, seconds, microseconds)] on [int]
    arguments: the carries of its normalisation, step by step. *)
Definition timedelta_of (days seconds microseconds : Z) : timedelta :=
  let d := days in
  let '(days1, seconds1) := divmod seconds (24 * 3600) in
  let d := d + days1 in
  let s := seconds1 in
  let '(seconds2, microseconds2) := divmod microseconds 1000000 in
  let '(days2, seconds2) := divmod seconds2 (24 * 3600) in
  let d := d + days2 in
  let s := s + seconds2 in
  let '(seconds3, us) := divmod microseconds2 1000000 in
  let s := s + seconds3 in
  let '(days3, s) := divmod s (24 * 3600) in
  let d := d + days3 in
  mkTimedelta d s us.

Definition td_add (a b : timedelta) : timedelta :=
  timedelta_of (td_days a + td_days b) (td_seconds a + td_seconds b)
               (td_microseconds a + td_microseconds b).

Definition td_sub (a b : timedelta) : timedelta :=
  timedelta_of (td_days a - td_days b) (td_seconds a - td_seconds b)
               (td_microseconds a - td_microseconds b).

Definition td_mul (a : timedelta) (k : Z) : timedelta :=
  timedelta_of (td_days a * k) (td_seconds a * k) (td_microseconds a * k).

Definition td_eqb (a b : timedelta) : bool :=
  (td_days a =? td_days b) && (td_seconds a =? td_seconds b)
  && (td_microseconds a =? td_microseconds b).

(** The length of a [timedelta] in microseconds. *)
Definition td_total_us (a : timedelta) : Z :=
  (td_days a * 86400 + td_seconds a) * 1000000 + td_microseconds a.

(** A [datetime]; [tzinfo] is [None] for a naive value and the UTC
    offset of its fixed-offset zone for an aware one. *)
Record datetime : Type := mkDatetime
  { year : Z; month : Z; day : Z;
    hour : Z; minute : Z; second : Z; microsecond : Z;
    tzinfo : option timedelta }.

Definition is_leap (y : Z) : bool :=
  (y mod 4 =? 0) && (negb (y mod 100 =? 0) || (y mod 400 =? 0)).

Definition days_before_year (y : Z) : Z :=
  let y := y - 1 in
  y * 365 + y / 4 - y / 100 + y / 400.

Definition days_in_month (y m : Z) : Z :=
  if (m =? 2) && is_leap y then 29
  else nth (Z.to_nat m) [0; 31; 28; 31; 30; 31; 30; 31; 31; 30; 31; 30; 31] 0.

Definition days_before_month (y m : Z) : Z :=
  nth (Z.to_nat m) [0; 0; 31; 59; 90; 120; 151; 181; 212; 243; 273; 304; 334] 0
  + (if (2 <? m) && is_leap y then 1 else 0).

Definition toordinal (dt : datetime) : Z :=
  days_before_year (year dt) + days_before_month (year dt) (month dt) + day dt.

Definition in_range (lo x hi : Z) : bool := (lo <=? x) && (x <=? hi).

(** The field checks of the [datetime] constructor. *)
Definition check_fields (dt : datetime) : bool :=
  in_range 1 (year dt) 9999 && in_range 1 (month dt) 12
  && in_range 1 (day dt) (days_in_month (year dt) (month dt))
  && in_range 0 (hour dt) 23 && in_range 0 (minute dt) 59
  && in_range 0 (second dt) 59 && in_range 0 (microsecond dt) 999999.

(** *** Parsing *)

Definition digit_of (c : ascii) : option Z :=
  let n := Z.of_nat (nat_of_ascii c) in
  if in_range 48 n 57 then Some (n - 48) else None.

Fixpoint digits_acc (s : string) (acc : Z) : option Z :=
  match s with
  | EmptyString => Some acc
  | String c s' =>
      match digit_of c with
      | Some d => digits_acc s' (acc * 10 + d)
      | None => None
      end
  end.

(** [int(s)] for a field of decimal digits; [None] stands for the
    [ValueError]. *)
Definition int_of (s : string) : option Z :=
  match s with
  | EmptyString => None
  | _ => digits_acc s 0
  end.

(** [s[i:]] and [s[i:j]]. *)
Definition slice_from (i : nat) (s : string) : string :=
  substring i (String.length s - i) s.
Definition slice (i j : nat) (s : string) : string := substring i (j - i) s.

(** [s.find(c)]. *)
Fixpoint find_char (c : ascii) (s : string) : option nat :=
  match s with
  | EmptyString => None
  | String c' s' =>
      if Ascii.eqb c' c then Some O
      else option_map S (find_char c s')
  end.

Definition parse_isoformat_date (dstr : string) : option (Z * Z * Z) :=
  if negb (String.length dstr =? 10)%nat then None else
  match int_of (slice 0 4 dstr), get 4 dstr,
        int_of (slice 5 7 dstr), get 7 dstr,
        int_of (slice 8 10 dstr) with
  | Some y, Some "-"%char, Some m, Some "-"%char, Some d => Some (y, m, d)
  | _, _, _, _, _ => None
  end.

(** The loop over the components [HH], [MM], [SS]: [comps] holds the
    components read so far, [n] those still allowed. *)
Fixpoint parse_hms (n : nat) (tstr : string) (comps : list Z)
  : option (list Z * string) :=
  match n with
  | O => Some (comps, tstr)
  | S n' =>
      if (String.length tstr <? 2)%nat then None else
      match int_of (slice 0 2 tstr) with
      | None => None
      | Some v =>
          let rest := slice_from 2 tstr in
          match rest, n' with
          | EmptyString, _ => Some (comps ++ [v], rest)
          | _, O => Some (comps ++ [v], rest)
          | String c rest', _ =>
              if Ascii.eqb c ":" then parse_hms n' rest' (comps ++ [v])
              else None
          end
      end
  end.

(** [HH[:MM[:SS[.fff[fff]]]]] as the list [[hh; mm; ss; us]]. *)
Definition parse_hh_mm_ss_ff (tstr : string) : option (list Z) :=
  match parse_hms 3 tstr [] with
  | None => None
  | Some (comps, rest) =>
      let hms := firstn 3 (comps ++ [0; 0; 0]) in
      match rest with
      | EmptyString => Some (hms ++ [0])
      | String c frac =>
          if negb (Ascii.eqb c ".") then None else
          let len := String.length frac in
          if negb ((len =? 3) || (len =? 6))%nat then None else
          match int_of frac with
          | None => None
          | Some us => Some (hms ++ [if (len =? 3)%nat then us * 1000 else us])
          end
      end
  end.

(** The offset of [timezone(offset)], which refuses an offset that is
    not strictly within a day. *)
Definition timezone (offset : timedelta) : option timedelta :=
  let bound := 24 * 3600 * 1000000 in
  if (- bound <? td_total_us offset) && (td_total_us offset <? bound)
  then Some offset else None.

Definition parse_isoformat_time (tstr : string)
  : option (list Z * option timedelta) :=
  if (String.length tstr <? 2)%nat then None else
  let tz_pos := match find_char "-" tstr with
                | Some i => Some i
                | None => find_char "+" tstr
                end in
  match tz_pos with
  | None =>
      match parse_hh_mm_ss_ff tstr with
      | Some comps => Some (comps, None)
      | None => None
      end
  | Some i =>
      let timestr := slice 0 i tstr in
      let tzstr := slice_from (S i) tstr in
      let len := String.length tzstr in
      match parse_hh_mm_ss_ff timestr with
      | None => None
      | Some comps =>
          if negb ((len =? 5) || (len =? 8) || (len =? 15))%nat then None else
          match parse_hh_mm_ss_ff tzstr with
          | Some [h; m; s; us] =>
              if forallb (Z.eqb 0) [h; m; s; us]
              then Some (comps, Some (timedelta_of 0 0 0))
              else
                let tzsign := match get i tstr with
                              | Some "-"%char => -1
                              | _ => 1
                              end in
                let td := timedelta_of 0 (s + m * 60 + h * 3600) us in
                match timezone (td_mul td tzsign) with
                | Some off => Some (comps, Some off)
                | None => None
                end
          | _ => None
          end
      end
  end.

Definition invalid (date_string : string) : exn :=
  ValueError ("Invalid isoformat string: " ++ date_string).

(** [datetime.fromisoformat(date_string)]. *)
Definition fromisoformat (date_string : string) : M datetime :=
  let dstr := slice 0 10 date_string in
  let tstr := slice_from 11 date_string in
  match parse_isoformat_date dstr with
  | None => raise (invalid date_string)
  | Some (y, m, d) =>
      let time_components :=
        match tstr with
        | EmptyString => Some ([0; 0; 0; 0], None)
        | _ => parse_isoformat_time tstr
        end in
      match time_components with
      | Some ([hh; mm; ss; us], tz) =>
          let dt := mkDatetime y m d hh mm ss us tz in
          if check_fields dt then ret dt
          else raise (ValueError "field out of range")
      | _ => raise (invalid date_string)
      end
  end.

(** *** Subtraction *)

Definition offset_eqb (a b : option timedelta) : bool :=
  match a, b with
  | None, None => true
  | Some x, Some y => td_eqb x y
  | _, _ => false
  end.

(** [self - other] for two [datetime] values. *)
Definition sub (self other : datetime) : M timedelta :=
  let days1 := toordinal self in
  let days2 := toordinal other in
  let secs1 := second self + minute self * 60 + hour self * 3600 in
  let secs2 := second other + minute other * 60 + hour other * 3600 in
  let base := timedelta_of (days1 - days2) (secs1 - secs2)
                           (microsecond self - microsecond other) in
  if offset_eqb (tzinfo self) (tzinfo other) then ret base
  else
    match tzinfo self, tzinfo other with
    | Some myoff, Some otoff => ret (td_sub (td_add base otoff) myoff)
    | _, _ => raise (TypeError "can't subtract offset-naive and offset-aware datetimes")
    end.

(** The instant of a [datetime] in microseconds from the start of the
    proleptic calendar, on the UTC time line when it is aware and on
    its own wall clock when it is naive. *)
Definition wall_us (dt : datetime) : Z :=
  ((toordinal dt * 86400) + (second dt + minute dt * 60 + hour dt * 3600))
  * 1000000 + microsecond dt.

Definition offset_us (dt : datetime) : Z :=
  match tzinfo dt with
  | None => 0
  | Some off => td_total_us off
  end.

Definition instant_us (dt : datetime) : Z := wall_us dt - offset_us dt.

Definition aware (dt : datetime) : bool :=
  match tzinfo dt with Some _ => true | None => false end.

Definition us_per_day : Z := 86400000000.

End Datetime.

(** ** [calculate_late_penalty] *)

Definition missing_date_warning (submitted_at due_date : pystr) : string :=
  ("Warning: Missing date - submitted: " ++ format_str submitted_at
   ++ ", due: " ++ format_str due_date)%string.

Definition str_of (v : pystr) : string :=
  match v with
  | Some s => s
  | None => ""
  end.

Definition calculate_late_penalty
    (submitted_at due_date : pystr) (rate max_penalty : Q) : M PenaltyResult :=
  if negb (truthy_str submitted_at) || negb (truthy_str due_date) then
    emit (Stderr (missing_date_warning submitted_at due_date)) ;;;
    ret (mkPenaltyResult 0 0)
  else
    submitted <- Datetime.fromisoformat
                   (str_replace "Z" "+00:00" (str_of submitted_at)) ;;
    due <- Datetime.fromisoformat (str_replace "Z" "+00:00" (str_of due_date)) ;;
    delta <- Datetime.sub submitted due ;;
    let days_late := Z.max 0 (Datetime.td_days delta) in
    let penalty := Qmin max_penalty (rate * inject_Z days_late) in
    ret (mkPenaltyResult days_late penalty).

(** ** Sorting

    [list.sort] and [sorted] are stable; with [reverse=True] the keys
    descend and elements with equal keys keep their original order.  On
    rational keys that arrangement is unique; it is computed here by
    insertion. *)
Section Sort.
Context {A : Type} (key : A -> Q).

Fixpoint insert_desc (x : A) (l : list A) : list A :=
  match l with
  | [] => [x]
  | y :: l' =>
      if Qle_bool (key y) (key x) then x :: y :: l'
      else y :: insert_desc x l'
  end.

Fixpoint sort_desc (l : list A) : list A :=
  match l with
  | [] => []
  | x :: l' => insert_desc x (sort_desc l')
  end.

(** The elements whose key equals [v], in list order. *)
Definition with_key (v : Q) (l : list A) : list A :=
  filter (fun a => Qeq_bool (key a) v) l.

Definition descending : list A -> Prop :=
  StronglySorted (fun a b => (key b <= key a)%Q).
End Sort.

(** ** [process_assignment_category] *)

(** One entry of a category of the grades file: the keys ["score"] and
    ["submitted_at"] of an assignment. *)
Record Submission : Type := mkSubmission
  { score : Q;
    submitted_at : pystr }.

(** The loop over [scores.items()] that builds [assignments]. *)
Fixpoint score_assignments
    (scores : dict Submission) (due_dates : dict pystr)
    (late_penalty_rate late_penalty_max : Q) (assignments : list AssignmentScore)
  : M (list AssignmentScore) :=
  match scores with
  | [] => ret assignments
  | (name, assignment) :: scores' =>
      pen <- calculate_late_penalty
               (submitted_at assignment)
               (match dict_get name due_dates with
                | Some d => d
                | None => Some ""
                end)
               late_penalty_rate late_penalty_max ;;
      let adjusted_score := (score assignment * (1 - penalty pen))%Q in
      score_assignments scores' due_dates late_penalty_rate late_penalty_max
        (assignments ++ [mkAssignmentScore name (score assignment)
                           adjusted_score (days_late pen)])
  end.

(** [sum(a.adjusted_score for a in assignments)]. *)
Definition sum_adjusted (assignments : list AssignmentScore) : Q :=
  fold_left (fun acc a => (acc + adjusted_score a)%Q) assignments 0%Q.

(** [assignments[:-drops]] for a positive [drops]. *)
Definition drop_last (drops : Z) (assignments : list AssignmentScore)
  : list AssignmentScore :=
  firstn (List.length assignments - Z.to_nat drops) assignments.

Definition process_assignment_category
    (category_name : string) (scores : dict Submission) (due_dates : dict pystr)
    (weight late_penalty_rate late_penalty_max : Q) (drops : Z)
  : M (Q * Table) :=
  assignments <- score_assignments scores due_dates
                   late_penalty_rate late_penalty_max [] ;;
  let assignments :=
    if 0 <? drops then drop_last drops (sort_desc adjusted_score assignments)
    else assignments in
  if (List.length assignments =? 0)%nat then raise ZeroDivisionError else
  let avg_score :=
    (sum_adjusted assignments / inject_Z (Z.of_nat (List.length assignments)))%Q in
  let weighted_score := (avg_score * weight)%Q in
  ret (weighted_score, mkTable (str_title category_name) assignments).

(** ** The same functions over any arithmetic

    The program computes with Python numbers, whose products, differences,
    sums and quotients are rounded when they are floats.  The definitions
    above take them exact.  The definitions below are the same functions
    with the four operations as a parameter, so that what is proved of
    them for every arithmetic holds of the program's own rounding as well
    as of the exact operations; comparisons, [min] and [max] are exact in
    both. *)
Record arithmetic : Type := mkArithmetic
  { ar_add : Q -> Q -> Q;
    ar_sub : Q -> Q -> Q;
    ar_mul : Q -> Q -> Q;
    ar_div : Q -> Q -> Q }.

Definition exact : arithmetic := mkArithmetic Qplus Qminus Qmult Qdiv.

Definition calculate_late_penalty_in (ar : arithmetic)
    (submitted_at due_date : pystr) (rate max_penalty : Q) : M PenaltyResult :=
  if negb (truthy_str submitted_at) || negb (truthy_str due_date) then
    emit (Stderr (missing_date_warning submitted_at due_date)) ;;;
    ret (mkPenaltyResult 0 0)
  else
    submitted <- Datetime.fromisoformat
                   (str_replace "Z" "+00:00" (str_of submitted_at)) ;;
    due <- Datetime.fromisoformat (str_replace "Z" "+00:00" (str_of due_date)) ;;
    delta <- Datetime.sub submitted due ;;
    let days_late := Z.max 0 (Datetime.td_days delta) in
    let penalty := Qmin max_penalty (ar_mul ar rate (inject_Z days_late)) in
    ret (mkPenaltyResult days_late penalty).

Fixpoint score_assignments_in (ar : arithmetic)
    (scores : dict Submission) (due_dates : dict pystr)
    (late_penalty_rate late_penalty_max : Q) (assignments : list AssignmentScore)
  : M (list AssignmentScore) :=
  match scores with
  | [] => ret assignments
  | (name, assignment) :: scores' =>
      pen <- calculate_late_penalty_in ar
               (submitted_at assignment)
               (match dict_get name due_dates with
                | Some d => d
                | None => Some ""
                end)
               late_penalty_rate late_penalty_max ;;
      let adjusted_score :=
        ar_mul ar (score assignment) (ar_sub ar 1 (penalty pen)) in
      score_assignments_in ar scores' due_dates
        late_penalty_rate late_penalty_max
        (assignments ++ [mkAssignmentScore name (score assignment)
                           adjusted_score (days_late pen)])
  end.

Definition sum_adjusted_in (ar : arithmetic) (assignments : list AssignmentScore)
  : Q :=
  fold_left (fun acc a => ar_add ar acc (adjusted_score a)) assignments 0%Q.

Definition process_assignment_category_in (ar : arithmetic)
    (category_name : string) (scores : dict Submission) (due_dates : dict pystr)
    (weight late_penalty_rate late_penalty_max : Q) (drops : Z)
  : M (Q * Table) :=
  assignments <- score_assignments_in ar scores due_dates
                   late_penalty_rate late_penalty_max [] ;;
  let assignments :=
    if 0 <? drops then drop_last drops (sort_desc adjusted_score assignments)
    else assignments in
  if (List.length assignments =? 0)%nat then raise ZeroDivisionError else
  let avg_score :=
    ar_div ar (sum_adjusted_in ar assignments)
      (inject_Z (Z.of_nat (List.length assignments))) in
  let weighted_score := ar_mul ar avg_score weight in
  ret (weighted_score, mkTable (str_title category_name) assignments).

(** ** [calculate_grade] *)

(** The grades file: [grades["scores"]] with its optional categories, and
    the optional [name] and [id]. [None] is an absent key. *)
Record Scores : Type := mkScores
  { project : option Submission;
    quizzes : option (dict Submission);
    homework : option (dict Submission);
    reflections : option (dict Submission) }.

Record Grades : Type := mkGrades
  { student_name : option string;
    student_id : option string;
    scores : option Scores }.

(** The policy file. *)
Record LatePenalty : Type := mkLatePenalty
  { rate : Q;
    max_penalty : Q }.

Record DueDates : Type := mkDueDates
  { due_project : option pystr;
    due_quizzes : option (dict pystr);
    due_homework : option (dict pystr);
    due_reflections : option (dict pystr) }.

Record Policy : Type := mkPolicy
  { weights : dict Q;
    due_dates : DueDates;
    late_penalty : LatePenalty;
    quiz_drops : option Z;
    grade_scale : option (dict Q) }.

(** The values that the final part of the report prints. *)
Record Report : Type := mkReport
  { total_score : Q;
    letter_grade : string;
    warning_messages : list string }.

(** Truth value of [policy["weights"].get(category)]: the weight is
    there and is not zero. *)
Definition truthy_weight (w : option Q) : bool :=
  match w with
  | Some q => negb (Qeq_bool q 0)
  | None => false
  end.

(** Truth value of [grades["scores"].get(category)] for a category of
    several assignments: the mapping is there and is not empty. *)
Definition truthy_dict {V} (d : option (dict V)) : bool :=
  match d with
  | Some (_ :: _) => true
  | _ => false
  end.

Definition is_some {V} (o : option V) : bool :=
  match o with Some _ => true | None => false end.

(** [d[k]] on a key that may be absent. *)
Definition subscript {V} (k : string) (o : option V) : M V :=
  match o with
  | Some v => ret v
  | None => raise (KeyError k)
  end.

Definition pipeline_state : Type := (Q * list string)%type.

(** [policy["due_dates"].get("project", "")]. *)
Definition project_due (policy : Policy) : pystr :=
  match due_project (due_dates policy) with
  | Some d => d
  | None => Some ""
  end.

(** Lines 109-130: the project. *)
Definition project_stage (sc : Scores) (policy : Policy) (st : pipeline_state)
  : M pipeline_state :=
  let '(total_score, warning_messages) := st in
  match project sc, dict_get "project" (weights policy) with
  | Some proj, Some weight =>
      if truthy_weight (Some weight) then
        project_penalty <- calculate_late_penalty
                             (submitted_at proj)
                             (project_due policy)
                             (rate (late_penalty policy))
                             (max_penalty (late_penalty policy)) ;;
        let project_score :=
          (score proj * (1 - penalty project_penalty) * weight)%Q in
        let total_score := (total_score + project_score)%Q in
        emit ProjectHeading ;;;
        emit (OriginalScoreLine (score proj)) ;;;
        emit (DaysLateLine (days_late project_penalty)) ;;;
        emit (WeightLine "project" weight) ;;;
        emit (ContributionLine project_score) ;;;
        ret (total_score, warning_messages)
      else ret (total_score, warning_messages ++ ["Missing project data"])
  | _, _ => ret (total_score, warning_messages ++ ["Missing project data"])
  end.

(** Lines 133-149, 152-167 and 170-185: the block that the source writes
    once for each of quizzes, homework and reflections, with the
    category key, its scores, its due dates and its number of drops. *)
Definition category_stage
    (category : string) (cat_scores : option (dict Submission))
    (cat_due : option (dict pystr)) (drops : Z)
    (policy : Policy) (st : pipeline_state) : M pipeline_state :=
  let '(total_score, warning_messages) := st in
  match cat_scores, dict_get category (weights policy) with
  | Some sc, Some weight =>
      if truthy_dict (Some sc) && truthy_weight (Some weight) then
        due <- subscript category cat_due ;;
        r <- process_assignment_category category sc due weight
               (rate (late_penalty policy))
               (max_penalty (late_penalty policy)) drops ;;
        let '(cat_score, cat_table) := r in
        let total_score := (total_score + cat_score)%Q in
        emit (CategoryHeading category) ;;;
        emit (TableOut cat_table) ;;;
        emit (WeightLine category weight) ;;;
        emit (ContributionLine cat_score) ;;;
        ret (total_score, warning_messages)
      else ret (total_score,
                warning_messages ++ [("Missing " ++ category ++ " data")%string])
  | _, _ => ret (total_score,
                 warning_messages ++ [("Missing " ++ category ++ " data")%string])
  end.

(** The loop of lines 190-195 over the sorted items: the first grade
    whose minimum the total reaches, else the grade held so far. *)
Fixpoint first_reached (total_score : Q) (items : list (string * Q))
    (letter_grade : string) : string :=
  match items with
  | [] => letter_grade
  | (grade, min_score) :: items' =>
      if Qle_bool min_score total_score then grade
      else first_reached total_score items' letter_grade
  end.

(** Lines 188-195: the letter grade. *)
Definition resolve_letter_grade (total_score : Q) (policy : Policy) : string :=
  let letter_grade := "F" in
  if truthy_dict (grade_scale policy) then
    match grade_scale policy with
    | Some scale => first_reached total_score (sort_desc snd scale) letter_grade
    | None => letter_grade
    end
  else letter_grade.

Fixpoint print_warnings (msgs : list string) : M unit :=
  match msgs with
  | [] => ret tt
  | msg :: msgs' => emit (WarningLine msg) ;;; print_warnings msgs'
  end.

Definition default {V} (d : V) (o : option V) : V :=
  match o with Some v => v | None => d end.

Definition calculate_grade (grades : option Grades) (policy : Policy) : M Report :=
  match grades with
  | None => raise (ValueError "Invalid grades data")
  | Some g =>
      match scores g with
      | None => raise (ValueError "Invalid grades data")
      | Some sc =>
          emit (ReportHeader (default "N/A" (student_name g))
                             (default "N/A" (student_id g))) ;;;
          st <- project_stage sc policy (0%Q, []) ;;
          st <- category_stage "quizzes" (quizzes sc)
                  (due_quizzes (due_dates policy))
                  (default 0 (quiz_drops policy)) policy st ;;
          st <- category_stage "homework" (homework sc)
                  (due_homework (due_dates policy)) 0 policy st ;;
          st <- category_stage "reflections" (reflections sc)
                  (due_reflections (due_dates policy)) 0 policy st ;;
          let '(total_score, warning_messages) := st in
          let letter_grade := resolve_letter_grade total_score policy in
          emit SummaryHeading ;;;
          emit (FinalScoreLine total_score) ;;;
          emit (LetterGradeLine letter_grade) ;;;
          emit PolicyHeading ;;;
          emit (LatePenaltyRateLine (rate (late_penalty policy))) ;;;
          emit (MaxLatePenaltyLine (max_penalty (late_penalty policy))) ;;;
          emit (QuizDropsLine (quiz_drops policy)) ;;;
          (match warning_messages with
           | [] => ret tt
           | _ => emit WarningsHeading ;;; print_warnings warning_messages
           end) ;;;
          ret (mkReport total_score letter_grade warning_messages)
      end
  end.

(** * Vocabulary of the properties *)

(** A timestamp that is absent ([None]) or empty. *)
Definition missing (v : pystr) : Prop := v = None \/ v = Some "".

(** How the loop relates an entry of [scores] to the [AssignmentScore]
    made from it. *)
Definition scored (due_dates : dict pystr) (r mp : Q)
    (entry : string * Submission) (a : AssignmentScore) : Prop :=
  exists out pen,
    calculate_late_penalty (submitted_at (snd entry))
      (match dict_get (fst entry) due_dates with
       | Some d => d
       | None => Some ""
       end) r mp = (out, inr pen)
    /\ a = mkAssignmentScore (fst entry) (score (snd entry))
             (score (snd entry) * (1 - penalty pen))%Q (days_late pen).

(** The assignments that are counted, from all that the loop made. *)
Definition counted (drops : Z) (assignments : list AssignmentScore)
  : list AssignmentScore :=
  if 0 <? drops then drop_last drops (sort_desc adjusted_score assignments)
  else assignments.

(** One list is another with some elements left out. *)
Inductive subsequence {A : Type} : list A -> list A -> Prop :=
| subsequence_nil : subsequence [] []
| subsequence_skip x l1 l2 : subsequence l1 l2 -> subsequence l1 (x :: l2)
| subsequence_take x l1 l2 : subsequence l1 l2 -> subsequence (x :: l1) (x :: l2).

Definition stage_warnings : list string :=
  ["Missing project data"; "Missing quizzes data"; "Missing homework data";
   "Missing reflections data"].

(** The entries of the grade scale, none when the policy has no scale. *)
Definition scale_items (policy : Policy) : list (string * Q) :=
  match grade_scale policy with
  | Some scale => scale
  | None => []
  end.

Definition above (total_score : Q) (entry : string * Q) : Prop :=
  (total_score < snd entry)%Q.

(** A grade scale is well formed for a ranking of the letters when a
    higher minimum score never goes with a lower rank, and no listed
    letter ranks below the failing grade "F". *)
Definition well_formed_scale (rank : string -> Z) (items : list (string * Q))
  : Prop :=
  (forall g1 m1 g2 m2,
      In (g1, m1) items -> In (g2, m2) items ->
      (m1 <= m2)%Q -> rank g1 <= rank g2)
  /\ (forall g m, In (g, m) items -> rank "F" <= rank g).


(** What [calculate_late_penalty] prints for a pair of timestamps: the
    warning when one of them is missing, nothing otherwise. *)
Definition date_warning (s d : pystr) : list event :=
  if negb (truthy_str s) || negb (truthy_str d)
  then [Stderr (missing_date_warning s d)]
  else [].

(** [due_dates.get(name, "")] for an entry of [scores]. *)
Definition entry_due (due_dates : dict pystr) (entry : string * Submission)
  : pystr :=
  match dict_get (fst entry) due_dates with
  | Some d => d
  | None => Some ""
  end.

(** The warnings of a category, one for each entry with a missing date,
    in the order of the entries. *)
Definition category_warnings (due_dates : dict pystr) (scs : dict Submission)
  : list event :=
  flat_map (fun entry => date_warning (submitted_at (snd entry))
                           (entry_due due_dates entry)) scs.

(** The mean adjusted score of a list of assignments. *)
Definition average (l : list AssignmentScore) : Q :=
  (sum_adjusted l / inject_Z (Z.of_nat (List.length l)))%Q.

(** The timestamp as [fromisoformat] receives it. *)
Definition iso (v : pystr) : string := str_replace "Z" "+00:00" (str_of v).

(** The lines that end a report: the summary, the policy and the
    warnings, if any. *)
Definition report_tail (policy : Policy) (rep : Report) : list event :=
  [SummaryHeading; FinalScoreLine (total_score rep);
   LetterGradeLine (letter_grade rep); PolicyHeading;
   LatePenaltyRateLine (rate (late_penalty policy));
   MaxLatePenaltyLine (max_penalty (late_penalty policy));
   QuizDropsLine (quiz_drops policy)]
  ++ match warning_messages rep with
     | [] => []
     | msgs => WarningsHeading :: map WarningLine msgs
     end.

(** No two letters of a grade scale have the same minimum score. *)
Definition distinct_minimums (items : list (string * Q)) : Prop :=
  forall g1 m1 g2 m2,
    In (g1, m1) items -> In (g2, m2) items -> (m1 == m2)%Q -> g1 = g2.

(** The entry of the scale that a total reaches and whose minimum no
    other reached entry exceeds. *)
Definition highest_reached (total : Q) (items : list (string * Q))
    (grade : string) : Prop :=
  exists min_score,
    In (grade, min_score) items /\ (min_score <= total)%Q
    /\ forall g m, In (g, m) items -> (m <= total)%Q -> (m <= min_score)%Q.


(** A grade scale is monotonically ordered for a ranking of the letters
    when a higher minimum score never goes with a lower rank. *)
Definition monotonically_ordered (rank : string -> Z)
    (items : list (string * Q)) : Prop :=
  forall g1 m1 g2 m2,
    In (g1, m1) items -> In (g2, m2) items ->
    (m1 <= m2)%Q -> rank g1 <= rank g2.

(** The warning of a skipped category. *)
Definition missing_data (category : string) : string :=
  ("Missing " ++ category ++ " data")%string.

(** ** Example inputs *)

Definition on_time : pystr := Some "2024-01-09T00:00:00Z".
Definition due_jan_10 : pystr := Some "2024-01-10T00:00:00Z".

Definition example_quizzes : dict Submission :=
  [("Q1", mkSubmission 90 on_time); ("Q2", mkSubmission 40 on_time);
   ("Q3", mkSubmission 100 on_time)].

Definition example_due : dict pystr :=
  [("Q1", due_jan_10); ("Q2", due_jan_10); ("Q3", due_jan_10)].

Definition undated_quizzes : dict Submission :=
  [("Q1", mkSubmission 90 on_time); ("Q4", mkSubmission 80 on_time);
   ("Q3", mkSubmission 70 None)].

Definition late_quiz (points : Q) : dict Submission :=
  [("Q1", mkSubmission points (Some "2024-01-13T00:00:00Z"))].

Definition example_policy (project_weight : Q) : Policy :=
  mkPolicy [("project", project_weight); ("quizzes", 0.2%Q)]
    (mkDueDates (Some due_jan_10) (Some example_due) None None)
    (mkLatePenalty 0.1 0.5) (Some 1)
    (Some [("A", 90%Q); ("B", 80%Q); ("C", 70%Q); ("F", 0%Q)]).

Definition reordered_policy : Policy :=
  mkPolicy [] (mkDueDates None None None None) (mkLatePenalty 0.1 0.5) None
    (Some [("F", 0%Q); ("C", 70%Q); ("A", 90%Q); ("B", 80%Q)]).



(** A policy that drops as many quizzes as [example_quizzes] has. *)
Definition all_quizzes_dropped : Policy :=
  mkPolicy [("quizzes", 0.2%Q)] (mkDueDates None (Some example_due) None None)
    (mkLatePenalty 0.1 0.5) (Some 3) None.

Definition example_scores (proj : option Submission) : Scores :=
  mkScores proj (Some example_quizzes) None None.

Definition late_project : Submission :=
  mkSubmission 90 (Some "2024-01-13T00:00:00Z").

Definition example_grades : option Grades :=
  Some (mkGrades (Some "Ada") (Some "42")
          (Some (example_scores (Some late_project)))).

(** * Properties *)

(** ** The monad *)

Lemma bind_ret_l {A B} (a : A) (f : A -> M B) : bind (ret a) f = f a.
Proof. unfold bind, ret. destruct (f a) as [out r]. reflexivity. Qed.

Lemma bind_inr {A B} (m : M A) (f : A -> M B) out b :
  bind m f = (out, inr b) ->
  exists out1 a out2,
    m = (out1, inr a) /\ f a = (out2, inr b) /\ out = out1 ++ out2.
Proof.
  unfold bind. destruct m as [out1 [e | a]]; [discriminate |].
  destruct (f a) as [out2 r] eqn:Hf. intros H. injection H as <- ->.
  exists out1, a, out2. auto.
Qed.

Lemma bind_value {A B} (m : M A) (f : A -> M B) out a :
  m = (out, inr a) -> bind m f = (out ++ fst (f a), snd (f a)).
Proof. intros ->. unfold bind. destruct (f a). reflexivity. Qed.

Lemma bind_ext {A B} (m : M A) (f g : A -> M B) :
  (forall a, f a = g a) -> bind m f = bind m g.
Proof.
  intros H. unfold bind. destruct m as [out [e | a]]; [reflexivity |].
  rewrite H. reflexivity.
Qed.

Lemma bind_exn {A B} (m : M A) (f : A -> M B) out e :
  m = (out, inl e) -> bind m f = (out, inl e).
Proof. intros ->. reflexivity. Qed.

(** ** Time differences *)

Module DatetimeFacts.
Import Datetime.

(** The constructor keeps the length and normalises the fields. *)
Lemma timedelta_of_total d s us :
  td_total_us (timedelta_of d s us) = (d * 86400 + s) * 1000000 + us.
Proof.
  unfold timedelta_of, divmod, td_total_us. cbn [td_days td_seconds td_microseconds].
  change (24 * 3600) with 86400.
  Z.div_mod_to_equations. lia.
Qed.

Lemma timedelta_of_normal d s us :
  0 <= td_seconds (timedelta_of d s us) < 86400
  /\ 0 <= td_microseconds (timedelta_of d s us) < 1000000.
Proof.
  unfold timedelta_of, divmod. cbn [td_days td_seconds td_microseconds].
  change (24 * 3600) with 86400.
  Z.div_mod_to_equations. lia.
Qed.

(** The [days] field is the floor of the length in days. *)
Lemma timedelta_of_days d s us :
  td_days (timedelta_of d s us)
  = ((d * 86400 + s) * 1000000 + us) / us_per_day.
Proof.
  pose proof (timedelta_of_total d s us) as Ht.
  pose proof (timedelta_of_normal d s us) as [Hs Hu].
  unfold td_total_us in Ht. rewrite <- Ht. unfold us_per_day.
  apply Z.div_unique with
    (r := td_seconds (timedelta_of d s us) * 1000000
          + td_microseconds (timedelta_of d s us)); lia.
Qed.

Lemma td_eqb_total a b : td_eqb a b = true -> td_total_us a = td_total_us b.
Proof.
  unfold td_eqb, td_total_us. intros H.
  apply andb_prop in H as [H Hu]. apply andb_prop in H as [Hd Hs].
  apply Z.eqb_eq in Hd, Hs, Hu. congruence.
Qed.

Lemma td_add_total a b :
  td_total_us (td_add a b) = td_total_us a + td_total_us b.
Proof. unfold td_add. rewrite timedelta_of_total. unfold td_total_us. lia. Qed.

Lemma td_sub_total a b :
  td_total_us (td_sub a b) = td_total_us a - td_total_us b.
Proof. unfold td_sub. rewrite timedelta_of_total. unfold td_total_us. lia. Qed.

Lemma td_sub_days a b :
  td_days (td_sub a b) = (td_total_us a - td_total_us b) / us_per_day.
Proof.
  unfold td_sub. rewrite timedelta_of_days. unfold td_total_us. f_equal. lia.
Qed.

(** Subtraction of two values that are both naive or both aware gives
    the difference of their instants, with the floor in [days]. *)
Lemma sub_days self other :
  aware self = aware other ->
  exists delta,
    sub self other = ret delta
    /\ td_total_us delta = instant_us self - instant_us other
    /\ td_days delta = (instant_us self - instant_us other) / us_per_day.
Proof.
  unfold aware, sub, instant_us, offset_us, wall_us, offset_eqb.
  destruct (tzinfo self) as [myoff |], (tzinfo other) as [otoff |];
    try discriminate; intros _.
  - destruct (td_eqb myoff otoff) eqn:Heq.
    + apply td_eqb_total in Heq. eexists. split; [reflexivity |].
      rewrite timedelta_of_total, timedelta_of_days. split; [lia | f_equal; lia].
    + eexists. split; [reflexivity |].
      rewrite td_sub_days, td_sub_total, td_add_total, timedelta_of_total.
      split; [lia | f_equal; lia].
  - eexists. split; [reflexivity |].
    rewrite timedelta_of_total, timedelta_of_days. split; [lia | f_equal; lia].
Qed.

(** Mixing a naive and an aware value is refused. *)
Lemma sub_mixed self other :
  aware self <> aware other ->
  exists msg, sub self other = raise (TypeError msg).
Proof.
  unfold aware, sub, offset_eqb.
  destruct (tzinfo self), (tzinfo other); try congruence; intros _;
    eexists; reflexivity.
Qed.

Lemma Qfloor_div_days (x : Z) :
  Qfloor (inject_Z x / inject_Z us_per_day) = x / us_per_day.
Proof.
  unfold us_per_day, Qdiv, Qinv, Qmult, inject_Z, Qfloor.
  cbn [Qnum Qden]. rewrite Z.mul_1_r. reflexivity.
Qed.

End DatetimeFacts.

(** ** The late penalty *)

Import Datetime DatetimeFacts.

Lemma missing_falsy v : missing v -> truthy_str v = false.
Proof. intros [-> | ->]; reflexivity. Qed.

Lemma present_truthy s : s <> "" -> truthy_str (Some s) = true.
Proof. destruct s; [congruence | reflexivity]. Qed.

(** What [calculate_late_penalty] computes once both timestamps are
    parsed and subtracted. *)
Lemma calculate_late_penalty_parsed s d r mp submitted due delta :
  s <> "" -> d <> "" ->
  fromisoformat (str_replace "Z" "+00:00" s) = ret submitted ->
  fromisoformat (str_replace "Z" "+00:00" d) = ret due ->
  sub submitted due = ret delta ->
  calculate_late_penalty (Some s) (Some d) r mp
  = ret (mkPenaltyResult (Z.max 0 (td_days delta))
           (Qmin mp (r * inject_Z (Z.max 0 (td_days delta))))).
Proof.
  intros Hs Hd Hps Hpd Hsub. unfold calculate_late_penalty.
  rewrite (present_truthy s Hs), (present_truthy d Hd). cbn [negb orb str_of].
  rewrite Hps, bind_ret_l, Hpd, bind_ret_l, Hsub, bind_ret_l. reflexivity.
Qed.

Lemma penalty_bounds r mp days :
  (0 <= r)%Q -> (0 <= mp)%Q -> 0 <= days ->
  (0 <= Qmin mp (r * inject_Z days) <= mp)%Q.
Proof.
  intros Hr Hmp Hdays. split.
  - apply Q.min_glb; [exact Hmp |].
    apply Qmult_le_0_compat; [exact Hr |].
    change 0%Q with (inject_Z 0). rewrite <- Zle_Qle. exact Hdays.
  - apply Q.le_min_l.
Qed.

(** C1, as amended: when both timestamps are present and parse, both
    with a UTC offset or both without one, and the rate and the maximum
    penalty are fractions in [0,1], [calculate_late_penalty] returns
    without printing; [days_late] is the floor of the elapsed time
    (submitted - due) in days, not below 0; the penalty is
    [min(max_penalty, rate * days_late)] and lies in [0, max_penalty];
    and a submission on or before the due date has 0 days and 0 penalty. *)
Theorem late_penalty_whole_days_capped
    (s d : string) (r mp : Q) (submitted due : datetime) :
  s <> "" -> d <> "" ->
  fromisoformat (str_replace "Z" "+00:00" s) = ret submitted ->
  fromisoformat (str_replace "Z" "+00:00" d) = ret due ->
  aware submitted = aware due ->
  (0 <= r <= 1)%Q -> (0 <= mp <= 1)%Q ->
  exists p,
    calculate_late_penalty (Some s) (Some d) r mp = ret p
    /\ days_late p
       = Z.max 0 (Qfloor (inject_Z (instant_us submitted - instant_us due)
                          / inject_Z us_per_day))
    /\ (penalty p == Qmin mp (r * inject_Z (days_late p)))%Q
    /\ (0 <= penalty p <= mp)%Q
    /\ (instant_us submitted <= instant_us due ->
        days_late p = 0 /\ (penalty p == 0)%Q).
Proof.
  intros Hs Hd Hps Hpd Haw [Hr _] [Hmp _].
  destruct (sub_days submitted due Haw) as (delta & Hsub & _ & Hdays).
  eexists. split.
  { apply (calculate_late_penalty_parsed s d r mp submitted due delta); assumption. }
  cbn [days_late penalty]. rewrite Qfloor_div_days, <- Hdays.
  split; [reflexivity |]. split; [reflexivity |]. split.
  - apply penalty_bounds; [assumption | assumption | lia].
  - intros Hle.
    assert (Hz : Z.max 0 (td_days delta) = 0).
    { rewrite Hdays. apply Z.max_l.
      assert (instant_us submitted - instant_us due <= 0) as Hneg by lia.
      unfold us_per_day. Z.div_mod_to_equations. lia. }
    rewrite Hz. split; [reflexivity |].
    assert (Hzero : (r * inject_Z 0 == 0)%Q) by (unfold inject_Z; ring).
    rewrite Hzero. apply Q.min_r. exact Hmp.
Qed.

Lemma late_penalty_whole_days_capped_witness :
  exists p,
    calculate_late_penalty (Some "2024-01-13T00:00:00Z")
      (Some "2024-01-10T00:00:00Z") 0.1%Q 0.5%Q = ret p
    /\ days_late p = 3 /\ (penalty p == 0.3)%Q.
Proof.
  destruct (late_penalty_whole_days_capped
              "2024-01-13T00:00:00Z" "2024-01-10T00:00:00Z" 0.1%Q 0.5%Q
              (mkDatetime 2024 1 13 0 0 0 0 (Some (mkTimedelta 0 0 0)))
              (mkDatetime 2024 1 10 0 0 0 0 (Some (mkTimedelta 0 0 0))))
    as (p & Hp & Hdays & Hpen & _).
  - discriminate.
  - discriminate.
  - reflexivity.
  - reflexivity.
  - reflexivity.
  - split; discriminate.
  - split; discriminate.
  - exists p. split; [exact Hp |]. split.
    + rewrite Hdays. reflexivity.
    + rewrite Hpen, Hdays. reflexivity.
Defined.

(** C1, as stated, fails: two timestamps that are present and parse, one
    with the UTC marker and one without an offset, make the subtraction
    raise, so that no [days_late] and no penalty come back. *)
Lemma late_penalty_mixed_offsets_raise :
  let s := "2024-01-13T00:00:00Z" in
  let d := "2024-01-10T00:00:00" in
  (exists submitted due,
      fromisoformat (str_replace "Z" "+00:00" s) = ret submitted
      /\ fromisoformat (str_replace "Z" "+00:00" d) = ret due)
  /\ (0 <= 0.1 <= 1)%Q /\ (0 <= 0.5 <= 1)%Q
  /\ calculate_late_penalty (Some s) (Some d) 0.1%Q 0.5%Q
     = raise (TypeError "can't subtract offset-naive and offset-aware datetimes")
  /\ ~ exists p, calculate_late_penalty (Some s) (Some d) 0.1%Q 0.5%Q = ret p.
Proof.
  cbv zeta. split; [| split; [| split; [| split]]].
  - do 2 eexists. split; reflexivity.
  - split; discriminate.
  - split; discriminate.
  - reflexivity.
  - intros [p Hp]. discriminate Hp.
Qed.

(** The scenarios of the penalty: three days late at 10% a day, ten
    days late capped at 50%, and 23 hours 59 minutes late, which is no
    whole day. *)
Example penalty_three_days_late :
  exists p,
    calculate_late_penalty (Some "2024-01-13T00:00:00Z") due_jan_10 0.1 0.5
    = ret p
    /\ days_late p = 3 /\ (penalty p == 0.3)%Q.
Proof. eexists. split; [vm_compute; reflexivity |]. split; reflexivity. Qed.

Example penalty_capped_at_maximum :
  exists p,
    calculate_late_penalty (Some "2024-01-20T00:00:00Z") due_jan_10 0.1 0.5
    = ret p
    /\ days_late p = 10 /\ (penalty p == 0.5)%Q.
Proof. eexists. split; [vm_compute; reflexivity |]. split; reflexivity. Qed.

Example penalty_under_a_day_late :
  exists p,
    calculate_late_penalty (Some "2024-01-10T23:59:00Z") due_jan_10 0.1 0.5
    = ret p
    /\ days_late p = 0 /\ (penalty p == 0)%Q.
Proof. eexists. split; [vm_compute; reflexivity |]. split; reflexivity. Qed.

(** C5: when the submission time or the due date is absent or empty,
    [calculate_late_penalty] raises nothing; it prints the missing-date
    warning on the error stream and returns 0 days late and 0 penalty. *)
Theorem missing_date_degrades (submitted_at due_date : pystr) (r mp : Q) :
  missing submitted_at \/ missing due_date ->
  calculate_late_penalty submitted_at due_date r mp
  = ([Stderr (missing_date_warning submitted_at due_date)],
     inr (mkPenaltyResult 0 0)).
Proof.
  intros H. unfold calculate_late_penalty.
  assert (Hc : negb (truthy_str submitted_at) || negb (truthy_str due_date) = true).
  { destruct H as [H | H]; apply missing_falsy in H; rewrite H;
      [reflexivity | apply orb_true_r]. }
  rewrite Hc. reflexivity.
Qed.

Lemma missing_date_degrades_witness :
  calculate_late_penalty None (Some "2024-01-10T00:00:00Z") 0.1%Q 0.5%Q
  = ([Stderr "Warning: Missing date - submitted: None, due: 2024-01-10T00:00:00Z"],
     inr (mkPenaltyResult 0 0)).
Proof.
  apply (missing_date_degrades None (Some "2024-01-10T00:00:00Z") 0.1%Q 0.5%Q).
  left. left. reflexivity.
Defined.

(** ** The descending stable sort *)

Section SortFacts.
Context {A : Type} (key : A -> Q).

Lemma insert_desc_perm x l : Permutation (x :: l) (insert_desc key x l).
Proof.
  induction l as [| y l IH]; cbn; [reflexivity |].
  destruct (Qle_bool (key y) (key x)); [reflexivity |].
  rewrite perm_swap. apply perm_skip, IH.
Qed.

Lemma sort_desc_perm l : Permutation l (sort_desc key l).
Proof.
  induction l as [| x l IH]; cbn; [constructor |].
  rewrite <- insert_desc_perm. apply perm_skip, IH.
Qed.

Lemma sort_desc_length l : List.length (sort_desc key l) = List.length l.
Proof. symmetry. apply Permutation_length, sort_desc_perm. Qed.

Lemma insert_desc_descending x l :
  descending key l -> descending key (insert_desc key x l).
Proof.
  unfold descending. induction 1 as [| y l Hl IH Hy]; cbn.
  - repeat constructor.
  - destruct (Qle_bool (key y) (key x)) eqn:Hc.
    + apply Qle_bool_iff in Hc. constructor.
      * constructor; assumption.
      * constructor; [exact Hc |].
        eapply Forall_impl; [| exact Hy]. cbn. intros b Hb.
        eapply Qle_trans; eassumption.
    + assert (Hlt : (key x < key y)%Q).
      { apply Qnot_le_lt. intros Hle. apply Qle_bool_iff in Hle. congruence. }
      constructor; [exact IH |].
      eapply Permutation_Forall; [apply insert_desc_perm |].
      constructor; [apply Qlt_le_weak, Hlt | exact Hy].
Qed.

Lemma sort_desc_descending l : descending key (sort_desc key l).
Proof.
  induction l as [| x l IH]; cbn; [constructor |].
  apply insert_desc_descending, IH.
Qed.

(** Stability: elements with the same key keep their order. *)
Lemma insert_desc_with_key v x l :
  with_key key v (insert_desc key x l) = with_key key v (x :: l).
Proof.
  induction l as [| y l IH]; [reflexivity |].
  cbn [insert_desc]. destruct (Qle_bool (key y) (key x)) eqn:Hc; [reflexivity |].
  unfold with_key in *. cbn [filter] in *. rewrite IH.
  destruct (Qeq_bool (key x) v) eqn:Hx, (Qeq_bool (key y) v) eqn:Hy;
    try reflexivity.
  apply Qeq_bool_iff in Hx, Hy.
  assert (Hle : (key y <= key x)%Q) by (rewrite Hx, Hy; apply Qle_refl).
  apply Qle_bool_iff in Hle. congruence.
Qed.

Lemma sort_desc_with_key v l :
  with_key key v (sort_desc key l) = with_key key v l.
Proof.
  induction l as [| x l IH]; [reflexivity |].
  cbn [sort_desc]. rewrite insert_desc_with_key.
  unfold with_key in *. cbn [filter]. rewrite IH. reflexivity.
Qed.

Lemma descending_app_le l1 l2 a b :
  descending key (l1 ++ l2) -> In a l1 -> In b l2 -> (key b <= key a)%Q.
Proof.
  unfold descending. induction l1 as [| x l1 IH]; cbn; [contradiction |].
  intros Hs [-> | Ha] Hb.
  - apply StronglySorted_inv in Hs as [_ Hall].
    rewrite Forall_forall in Hall. apply Hall, in_or_app. right. exact Hb.
  - apply StronglySorted_inv in Hs as [Hs _]. apply IH; assumption.
Qed.
End SortFacts.

(** ** The assignments of a category *)

Lemma score_assignments_acc scs : forall dd r mp acc out l,
  score_assignments scs dd r mp acc = (out, inr l) ->
  exists l', l = acc ++ l' /\ Forall2 (scored dd r mp) scs l'.
Proof.
  induction scs as [| [n a] scs IH]; intros dd r mp acc out l H.
  - cbn in H. injection H as _ <-. exists []. rewrite app_nil_r. auto.
  - cbn [score_assignments] in H.
    apply bind_inr in H as (out1 & pen & out2 & Hpen & Hrest & _).
    apply IH in Hrest as (l' & -> & Hl').
    exists (mkAssignmentScore n (score a) (score a * (1 - penalty pen))%Q
              (days_late pen) :: l').
    rewrite <- app_assoc. split; [reflexivity |].
    constructor; [| exact Hl']. exists out1, pen. auto.
Qed.

Lemma score_assignments_scored scs dd r mp out l :
  score_assignments scs dd r mp [] = (out, inr l) ->
  Forall2 (scored dd r mp) scs l.
Proof.
  intros H. apply score_assignments_acc in H as (l' & -> & H). exact H.
Qed.

Lemma score_assignments_length scs dd r mp out l :
  score_assignments scs dd r mp [] = (out, inr l) ->
  List.length l = List.length scs.
Proof.
  intros H. apply score_assignments_scored in H.
  symmetry. eapply Forall2_length, H.
Qed.

Lemma process_assignment_category_counted category scs dd w r mp drops out all :
  score_assignments scs dd r mp [] = (out, inr all) ->
  process_assignment_category category scs dd w r mp drops
  = match counted drops all with
    | [] => (out, inl ZeroDivisionError)
    | kept =>
        (out, inr ((sum_adjusted kept / inject_Z (Z.of_nat (List.length kept)))
                   * w, mkTable (str_title category) kept)%Q)
    end.
Proof.
  intros H. unfold process_assignment_category.
  rewrite (bind_value _ _ _ _ H). fold (counted drops all).
  destruct (counted drops all) as [| a kept]; cbn; rewrite app_nil_r; reflexivity.
Qed.

Lemma counted_drop drops all :
  0 < drops ->
  counted drops all
  = firstn (List.length all - Z.to_nat drops) (sort_desc adjusted_score all).
Proof.
  intros H. unfold counted, drop_last.
  apply Z.ltb_lt in H. rewrite H, sort_desc_length. reflexivity.
Qed.

(** *** Over any arithmetic *)

Lemma calculate_late_penalty_in_exact s d r mp :
  calculate_late_penalty_in exact s d r mp = calculate_late_penalty s d r mp.
Proof. reflexivity. Qed.

Lemma score_assignments_in_exact scs : forall dd r mp acc,
  score_assignments_in exact scs dd r mp acc = score_assignments scs dd r mp acc.
Proof.
  induction scs as [| [n a] scs IH]; intros dd r mp acc; [reflexivity |].
  cbn [score_assignments_in score_assignments].
  rewrite calculate_late_penalty_in_exact.
  apply bind_ext. intros pen. apply IH.
Qed.

Lemma process_assignment_category_in_exact category scs dd w r mp drops :
  process_assignment_category_in exact category scs dd w r mp drops
  = process_assignment_category category scs dd w r mp drops.
Proof.
  unfold process_assignment_category_in, process_assignment_category.
  rewrite score_assignments_in_exact. reflexivity.
Qed.






(** C9: when the drop count is at least the number of assignments of the
    category, so that none is left to count, [process_assignment_category]
    raises at the division by the number of counted assignments; nothing
    guards that division. *)
Theorem emptied_category_division_fails
    (category : string) (scs : dict Submission) (dd : dict pystr)
    (w r mp : Q) (k : Z) (out : list event) (all : list AssignmentScore) :
  score_assignments scs dd r mp [] = (out, inr all) ->
  Z.of_nat (List.length scs) <= k ->
  counted k all = []
  /\ process_assignment_category category scs dd w r mp k
     = (out, inl ZeroDivisionError).
Proof.
  intros Hall Hk.
  pose proof (score_assignments_length _ _ _ _ _ _ Hall) as Hlen.
  assert (Hc : counted k all = []).
  { destruct (Z.ltb_spec 0 k) as [Hpos | Hnpos].
    - rewrite counted_drop by exact Hpos.
      replace (List.length all - Z.to_nat k)%nat with O by lia. reflexivity.
    - unfold counted. destruct (0 <? k) eqn:Hlt; [apply Z.ltb_lt in Hlt; lia |].
      destruct all; [reflexivity | cbn in Hlen; lia]. }
  split; [exact Hc |].
  rewrite (process_assignment_category_counted _ _ _ _ _ _ _ _ _ Hall), Hc.
  reflexivity.
Qed.




(** ** Examples of a category *)

Example quiz_drop_scenario :
  exists weighted_score q3 q1,
    process_assignment_category "quizzes" example_quizzes example_due
      0.2 0.1 0.5 1
    = ([], inr (weighted_score, mkTable "Quizzes" [q3; q1]))
    /\ name q3 = "Q3" /\ name q1 = "Q1" /\ (weighted_score == 19)%Q.
Proof. do 3 eexists. split; [vm_compute; reflexivity |]. repeat split. Qed.


Lemma emptied_category_division_fails_witness :
  process_assignment_category "quizzes" example_quizzes example_due
    0.2 0.1 0.5 3
  = ([], inl ZeroDivisionError).
Proof.
  eapply (emptied_category_division_fails "quizzes" example_quizzes example_due
            0.2 0.1 0.5 3 []).
  - vm_compute. reflexivity.
  - cbn. lia.
Defined.



(** ** The project stage *)

(** C4, as amended: the project stage runs when the student's project
    is present and the policy's project weight is present and not zero,
    and then, for the penalty that [calculate_late_penalty] returns, it
    adds [original_score * (1 - penalty) * weight] to the total and adds
    no warning; when the project is absent, or the weight is absent or
    zero, the stage is skipped: it prints nothing, leaves the total as it
    is and appends the warning "Missing project data". *)
Theorem project_stage_contribution
    (sc : Scores) (policy : Policy) (total : Q) (warnings : list string) :
  (forall proj weight out pen,
      project sc = Some proj ->
      dict_get "project" (weights policy) = Some weight ->
      ~ (weight == 0)%Q ->
      calculate_late_penalty (submitted_at proj) (project_due policy)
        (rate (late_penalty policy)) (max_penalty (late_penalty policy))
      = (out, inr pen) ->
      let contribution := (score proj * (1 - penalty pen) * weight)%Q in
      project_stage sc policy (total, warnings)
      = (out ++ [ProjectHeading; OriginalScoreLine (score proj);
                 DaysLateLine (days_late pen); WeightLine "project" weight;
                 ContributionLine contribution],
         inr ((total + contribution)%Q, warnings)))
  /\ (project sc = None
      \/ dict_get "project" (weights policy) = None
      \/ (exists weight, dict_get "project" (weights policy) = Some weight
                         /\ (weight == 0)%Q) ->
      project_stage sc policy (total, warnings)
      = ([], inr (total, warnings ++ ["Missing project data"]))).
Proof.
  split.
  - intros proj weight out pen Hp Hw Hnz Hpen contribution.
    unfold project_stage. rewrite Hp, Hw. cbn [truthy_weight].
    destruct (Qeq_bool weight 0) eqn:Hz;
      [apply Qeq_bool_iff in Hz; contradiction |].
    cbn [negb].
    rewrite (bind_value _ _ _ _ Hpen). reflexivity.
  - intros H. unfold project_stage.
    destruct (project sc) as [proj |]; [| reflexivity].
    destruct (dict_get "project" (weights policy)) as [weight |];
      [| reflexivity].
    destruct H as [H | [H | (w' & Hw & Hz)]]; try discriminate.
    injection Hw as <-. cbn [truthy_weight].
    apply Qeq_bool_iff in Hz. rewrite Hz. reflexivity.
Qed.

Lemma project_stage_contribution_witness :
  (exists total,
      project_stage (example_scores (Some late_project)) (example_policy 0.3)
        (0%Q, [])
      = ([ProjectHeading; OriginalScoreLine 90; DaysLateLine 3;
          WeightLine "project" 0.3;
          ContributionLine (90 * (1 - Qmin 0.5 (0.1 * inject_Z 3)) * 0.3)],
         inr (total, []))
      /\ (total == 18.9)%Q)
  /\ project_stage (example_scores None) (example_policy 0.3) (0%Q, [])
     = ([], inr (0%Q, ["Missing project data"])).
Proof.
  split.
  - eexists. split.
    + apply (proj1 (project_stage_contribution
                      (example_scores (Some late_project)) (example_policy 0.3)
                      0 [])
               late_project 0.3%Q []
               (mkPenaltyResult 3 (Qmin 0.5 (0.1 * inject_Z 3)))).
      * reflexivity.
      * reflexivity.
      * discriminate.
      * reflexivity.
    + reflexivity.
  - apply (proj2 (project_stage_contribution (example_scores None)
                    (example_policy 0.3) 0 [])).
    left. reflexivity.
Defined.

(** C4, as stated, fails: with the project and the project weight both
    present, a weight of zero makes the stage skip the project: nothing
    is printed for it and the warning is appended. *)
Lemma zero_project_weight_skips_stage :
  project (example_scores (Some late_project)) = Some late_project
  /\ dict_get "project" (weights (example_policy 0)) = Some 0%Q
  /\ project_stage (example_scores (Some late_project)) (example_policy 0)
       (0%Q, [])
     = ([], inr (0%Q, ["Missing project data"])).
Proof. repeat split. Qed.

(** ** The scores section *)

(** C7: for a grades record without a scores section (or no record at
    all), [calculate_grade] raises the "Invalid grades data" error before
    anything is printed, and returns no report. *)
Theorem missing_scores_section_raises (grades : option Grades) (policy : Policy) :
  grades = None \/ (exists g, grades = Some g /\ scores g = None) ->
  calculate_grade grades policy = ([], inl (ValueError "Invalid grades data")).
Proof.
  intros [-> | (g & -> & H)]; [reflexivity |].
  unfold calculate_grade. rewrite H. reflexivity.
Qed.

Lemma missing_scores_section_raises_witness :
  calculate_grade (Some (mkGrades (Some "Ada") (Some "42") None))
    (example_policy 0.3)
  = ([], inl (ValueError "Invalid grades data")).
Proof.
  apply (missing_scores_section_raises
           (Some (mkGrades (Some "Ada") (Some "42") None)) (example_policy 0.3)).
  right. eexists. split; reflexivity.
Defined.

(** ** The warnings *)

Lemma project_stage_warnings sc policy total ws out total' ws' :
  project_stage sc policy (total, ws) = (out, inr (total', ws')) ->
  ws' = ws \/ ws' = ws ++ ["Missing project data"].
Proof.
  unfold project_stage.
  destruct (project sc) as [proj |], (dict_get "project" (weights policy)) as [w |];
    try (intros H; injection H as _ _ <-; auto).
  destruct (truthy_weight (Some w)); [| intros H; injection H as _ _ <-; auto].
  intros H. apply bind_inr in H as (? & pen & ? & _ & H & _).
  cbn in H. injection H as _ _ <-. auto.
Qed.

Lemma category_stage_warnings category cs cd drops policy total ws out total' ws' :
  category_stage category cs cd drops policy (total, ws)
  = (out, inr (total', ws')) ->
  ws' = ws \/ ws' = ws ++ [("Missing " ++ category ++ " data")%string].
Proof.
  unfold category_stage.
  destruct cs as [sc |], (dict_get category (weights policy)) as [w |];
    try (intros H; injection H as _ _ <-; auto).
  destruct (truthy_dict (Some sc) && truthy_weight (Some w));
    [| intros H; injection H as _ _ <-; auto].
  intros H. apply bind_inr in H as (? & due & ? & _ & H & _).
  apply bind_inr in H as (? & [cat_score cat_table] & ? & _ & H & _).
  cbn in H. injection H as _ _ <-. auto.
Qed.

(** C10: when [calculate_grade] returns, its warnings are a subsequence
    of "Missing project data", "Missing quizzes data", "Missing homework
    data", "Missing reflections data": each stage appends its own warning
    or nothing, in the order of the stages. *)
Theorem warnings_follow_stage_order
    (grades : option Grades) (policy : Policy) (out : list event) (rep : Report) :
  calculate_grade grades policy = (out, inr rep) ->
  subsequence (warning_messages rep) stage_warnings.
Proof.
  unfold calculate_grade.
  destruct grades as [g |]; [| discriminate].
  destruct (scores g) as [sc |]; [| discriminate].
  intros H.
  apply bind_inr in H as (? & ? & ? & _ & H & _).
  apply bind_inr in H as (? & [t1 w1] & ? & H1 & H & _).
  apply bind_inr in H as (? & [t2 w2] & ? & H2 & H & _).
  apply bind_inr in H as (? & [t3 w3] & ? & H3 & H & _).
  apply bind_inr in H as (? & [t4 w4] & ? & H4 & H & _).
  repeat (apply bind_inr in H as (? & ? & ? & _ & H & _)).
  injection H as _ <-. cbn [warning_messages].
  apply project_stage_warnings in H1.
  apply category_stage_warnings in H2, H3, H4.
  unfold stage_warnings.
  destruct H1 as [-> | ->], H2 as [-> | ->], H3 as [-> | ->], H4 as [-> | ->];
    cbn;
    repeat first [apply subsequence_take | apply subsequence_skip
                 | apply subsequence_nil].
Qed.

Lemma warnings_follow_stage_order_witness :
  exists out rep,
    calculate_grade example_grades (example_policy 0.3) = (out, inr rep)
    /\ warning_messages rep
       = ["Missing homework data"; "Missing reflections data"]
    /\ subsequence (warning_messages rep) stage_warnings.
Proof.
  do 2 eexists. split; [vm_compute; reflexivity |].
  split; [reflexivity |].
  eapply (warnings_follow_stage_order example_grades (example_policy 0.3)).
  vm_compute. reflexivity.
Defined.

(** ** The letter grade *)

Lemma resolve_letter_grade_items total policy :
  resolve_letter_grade total policy
  = first_reached total (sort_desc snd (scale_items policy)) "F".
Proof.
  unfold resolve_letter_grade, scale_items.
  destruct (grade_scale policy) as [[| e scale] |]; reflexivity.
Qed.

Lemma first_reached_split total items letter :
  (exists pre grade min_score post,
      items = pre ++ (grade, min_score) :: post
      /\ Forall (above total) pre
      /\ (min_score <= total)%Q
      /\ first_reached total items letter = grade)
  \/ (Forall (above total) items /\ first_reached total items letter = letter).
Proof.
  induction items as [| [g m] items IH]; cbn [first_reached].
  - right. split; [constructor | reflexivity].
  - destruct (Qle_bool m total) eqn:Hc.
    + left. exists [], g, m, items. apply Qle_bool_iff in Hc.
      repeat split; [constructor | exact Hc].
    + assert (Hab : above total (g, m)).
      { unfold above. cbn [snd]. apply Qnot_le_lt. intros Hle.
        apply Qle_bool_iff in Hle. congruence. }
      destruct IH as [(pre & g' & m' & post & -> & Hpre & Hm & Hg) | [Hall Hd]].
      * left. exists ((g, m) :: pre), g', m', post.
        repeat split; [constructor; assumption | exact Hm | exact Hg].
      * right. split; [constructor; assumption | exact Hd].
Qed.

(** C3: the letter grade is the grade of the first entry of the grade
    scale, taken in descending order of minimum score (entries with equal
    minimum in their order in the scale), whose minimum is at most the
    total score; it is "F" when no entry qualifies, which includes an
    absent or empty scale.  With the scale A:90, B:80, C:70, F:0 and a
    total of 85 the grade is "B". *)
Theorem letter_grade_first_qualifying (total : Q) (policy : Policy) :
  let sorted := sort_desc snd (scale_items policy) in
  (Permutation (scale_items policy) sorted
   /\ descending snd sorted
   /\ forall v, with_key snd v sorted = with_key snd v (scale_items policy))
  /\ ((exists pre grade min_score post,
          sorted = pre ++ (grade, min_score) :: post
          /\ Forall (above total) pre
          /\ (min_score <= total)%Q
          /\ resolve_letter_grade total policy = grade)
      \/ (Forall (above total) (scale_items policy)
          /\ resolve_letter_grade total policy = "F"))
  /\ (forall w dd lp qd,
         resolve_letter_grade 85
           (mkPolicy w dd lp qd
              (Some [("A", 90%Q); ("B", 80%Q); ("C", 70%Q); ("F", 0%Q)]))
         = "B").
Proof.
  intros sorted. split; [| split].
  - split; [apply sort_desc_perm |].
    split; [apply sort_desc_descending |].
    intros v. apply sort_desc_with_key.
  - rewrite resolve_letter_grade_items. fold sorted.
    destruct (first_reached_split total sorted "F") as [H | [Hall Hf]].
    + left. exact H.
    + right. split; [| exact Hf].
      eapply Permutation_Forall; [| exact Hall].
      symmetry. apply sort_desc_perm.
  - reflexivity.
Qed.





Lemma well_formed_scale_ordered rank items :
  well_formed_scale rank items
  <-> monotonically_ordered rank items
      /\ (forall g m, In (g, m) items -> rank "F" <= rank g).
Proof. unfold well_formed_scale, monotonically_ordered. reflexivity. Qed.


(** * Further properties of the three functions *)

(** ** What the parser and the subtraction can do *)

Lemma fromisoformat_cases s :
  (exists dt, fromisoformat s = ret dt)
  \/ (exists msg, fromisoformat s = raise (ValueError msg)).
Proof.
  unfold fromisoformat, invalid.
  destruct (parse_isoformat_date _) as [[[y m] d] |];
    [| right; eexists; reflexivity].
  set (tc := match slice_from 11 s with
             | EmptyString => _
             | _ => _
             end).
  destruct tc as [[comps tz] |]; [| right; eexists; reflexivity].
  destruct comps as [| hh [| mm [| ss [| us [| ? ?]]]]];
    try (right; eexists; reflexivity).
  destruct (check_fields _);
    [left; eexists; reflexivity | right; eexists; reflexivity].
Qed.

Lemma sub_cases a b :
  (aware a = aware b /\ exists delta, sub a b = ret delta
      /\ td_days delta = (instant_us a - instant_us b) / us_per_day)
  \/ (aware a <> aware b /\ exists msg, sub a b = raise (TypeError msg)).
Proof.
  destruct (Bool.bool_dec (aware a) (aware b)) as [Heq | Hne].
  - left. split; [exact Heq |].
    destruct (sub_days a b Heq) as (delta & Hs & _ & Hd). eauto.
  - right. split; [exact Hne | apply sub_mixed, Hne].
Qed.

Lemma truthy_str_of v : truthy_str v = true -> v = Some (str_of v) /\ str_of v <> "".
Proof.
  destruct v as [[| c s] |]; cbn; try discriminate.
  intros _. split; [reflexivity | discriminate].
Qed.

(** Every way in which [calculate_late_penalty] ends. *)
Lemma calculate_late_penalty_cases s d r mp :
  (negb (truthy_str s) || negb (truthy_str d) = true
   /\ calculate_late_penalty s d r mp
      = ([Stderr (missing_date_warning s d)], inr (mkPenaltyResult 0 0)))
  \/ (truthy_str s = true /\ truthy_str d = true
      /\ ((exists msg,
              fromisoformat (iso s) = raise (ValueError msg)
              /\ calculate_late_penalty s d r mp = raise (ValueError msg))
          \/ (exists submitted msg,
                 fromisoformat (iso s) = ret submitted
                 /\ fromisoformat (iso d) = raise (ValueError msg)
                 /\ calculate_late_penalty s d r mp = raise (ValueError msg))
          \/ (exists submitted due msg,
                 fromisoformat (iso s) = ret submitted
                 /\ fromisoformat (iso d) = ret due
                 /\ aware submitted <> aware due
                 /\ calculate_late_penalty s d r mp = raise (TypeError msg))
          \/ (exists submitted due,
                 fromisoformat (iso s) = ret submitted
                 /\ fromisoformat (iso d) = ret due
                 /\ aware submitted = aware due
                 /\ let days :=
                      Z.max 0 ((instant_us submitted - instant_us due)
                               / us_per_day) in
                    calculate_late_penalty s d r mp
                    = ret (mkPenaltyResult days (Qmin mp (r * inject_Z days)))))).
Proof.
  unfold calculate_late_penalty, iso.
  destruct (negb (truthy_str s) || negb (truthy_str d)) eqn:Hc.
  { left. split; reflexivity. }
  right. apply orb_false_elim in Hc as [Hs Hd].
  apply negb_false_iff in Hs, Hd. split; [exact Hs |]. split; [exact Hd |].
  destruct (fromisoformat_cases (str_replace "Z" "+00:00" (str_of s)))
    as [[submitted Hps] | [msg Hps]]; rewrite Hps.
  2: { left. exists msg. split; reflexivity. }
  rewrite bind_ret_l.
  destruct (fromisoformat_cases (str_replace "Z" "+00:00" (str_of d)))
    as [[due Hpd] | [msg Hpd]]; rewrite Hpd.
  2: { right. left. exists submitted, msg. repeat split. }
  rewrite bind_ret_l.
  destruct (sub_cases submitted due)
    as [(Haw & delta & Hsub & Hdays) | (Haw & msg & Hsub)]; rewrite Hsub.
  - right. right. right. exists submitted, due.
    split; [reflexivity |]. split; [reflexivity |]. split; [exact Haw |].
    cbv zeta. rewrite bind_ret_l, Hdays. reflexivity.
  - right. right. left. exists submitted, due, msg. repeat split. exact Haw.
Qed.

Lemma calculate_late_penalty_returned s d r mp out p :
  truthy_str s = true -> truthy_str d = true ->
  calculate_late_penalty s d r mp = (out, inr p) ->
  exists submitted due,
    fromisoformat (iso s) = ret submitted
    /\ fromisoformat (iso d) = ret due
    /\ aware submitted = aware due
    /\ out = []
    /\ p = let days := Z.max 0 ((instant_us submitted - instant_us due)
                                / us_per_day) in
           mkPenaltyResult days (Qmin mp (r * inject_Z days)).
Proof.
  intros Hs Hd H.
  destruct (calculate_late_penalty_cases s d r mp)
    as [[Hc _] | (_ & _ & [(msg & _ & E) | [(sb & msg & _ & _ & E)
         | [(sb & du & msg & _ & _ & _ & E) | (sb & du & Hps & Hpd & Haw & E)]]])].
  - rewrite Hs, Hd in Hc. discriminate.
  - rewrite E in H. discriminate.
  - rewrite E in H. discriminate.
  - rewrite E in H. discriminate.
  - cbv zeta in E. rewrite E in H. injection H as <- <-.
    exists sb, du. auto.
Qed.

Lemma calculate_late_penalty_missing s d r mp :
  negb (truthy_str s) || negb (truthy_str d) = true ->
  calculate_late_penalty s d r mp
  = ([Stderr (missing_date_warning s d)], inr (mkPenaltyResult 0 0)).
Proof.
  intros Hc. unfold calculate_late_penalty. rewrite Hc. reflexivity.
Qed.

(** What the function prints does not depend on how it ends. *)
Lemma calculate_late_penalty_output s d r mp :
  fst (calculate_late_penalty s d r mp) = date_warning s d.
Proof.
  unfold date_warning.
  destruct (calculate_late_penalty_cases s d r mp)
    as [[Hc E] | (Hs & Hd & [(msg & _ & E) | [(sb & msg & _ & _ & E)
         | [(sb & du & msg & _ & _ & _ & E) | (sb & du & _ & _ & _ & E)]]])];
    try (rewrite Hs, Hd); try (rewrite Hc); cbv zeta in E; rewrite E; reflexivity.
Qed.

(** The only failures of [calculate_late_penalty]: a present timestamp
    that does not parse, the submission being read first, and a pair of
    timestamps of which exactly one has a UTC offset.  Nothing is
    printed before either. *)
Theorem late_penalty_failure_kinds
    (s d : pystr) (r mp : Q) (out : list event) (e : exn) :
  calculate_late_penalty s d r mp = (out, inl e) ->
  out = [] /\ truthy_str s = true /\ truthy_str d = true
  /\ ((exists msg, e = ValueError msg
                   /\ (fromisoformat (iso s) = raise e
                       \/ (exists submitted,
                              fromisoformat (iso s) = ret submitted
                              /\ fromisoformat (iso d) = raise e)))
      \/ (exists msg submitted due,
             e = TypeError msg
             /\ fromisoformat (iso s) = ret submitted
             /\ fromisoformat (iso d) = ret due
             /\ aware submitted <> aware due)).
Proof.
  intros H.
  destruct (calculate_late_penalty_cases s d r mp)
    as [[_ E] | (Hs & Hd & [(msg & Hp & E) | [(sb & msg & Hps & Hpd & E)
         | [(sb & du & msg & Hps & Hpd & Haw & E) | (sb & du & _ & _ & _ & E)]]])];
    cbv zeta in E; rewrite E in H; try discriminate;
    injection H as <- <-; (split; [reflexivity |]);
    (split; [exact Hs |]); (split; [exact Hd |]).
  - left. exists msg. split; [reflexivity |]. left. exact Hp.
  - left. exists msg. split; [reflexivity |]. right. exists sb. auto.
  - right. exists msg, sb, du. auto.
Qed.

Lemma late_penalty_failure_kinds_witness :
  exists msg,
    calculate_late_penalty (Some "yesterday") due_jan_10 0.1 0.5
    = raise (ValueError msg)
    /\ fromisoformat (iso (Some "yesterday")) = raise (ValueError msg).
Proof.
  destruct (late_penalty_failure_kinds (Some "yesterday") due_jan_10 0.1 0.5 []
              (ValueError "Invalid isoformat string: yesterday"))
    as (_ & _ & _ & [(msg & He & [Hp | (sb & Hp & _)]) | (msg & sb & du & He & _)]).
  - reflexivity.
  - exists "Invalid isoformat string: yesterday". split; [reflexivity | exact Hp].
  - discriminate Hp.
  - discriminate He.
Defined.

(** Every result that [calculate_late_penalty] returns has a number of
    days that is not negative; its penalty is 0 when that number is 0
    and the maximum is not negative, and lies between 0 and the maximum
    when neither the rate nor the maximum is negative. *)
Theorem late_penalty_result_range
    (s d : pystr) (r mp : Q) (out : list event) (p : PenaltyResult) :
  calculate_late_penalty s d r mp = (out, inr p) ->
  0 <= days_late p
  /\ ((0 <= mp)%Q -> days_late p = 0 -> (penalty p == 0)%Q)
  /\ ((0 <= r)%Q -> (0 <= mp)%Q -> (0 <= penalty p <= mp)%Q).
Proof.
  intros H.
  destruct (negb (truthy_str s) || negb (truthy_str d)) eqn:Hc.
  - rewrite (calculate_late_penalty_missing _ _ _ _ Hc) in H.
    injection H as _ <-. cbn. split; [lia |]. split.
    + intros _ _. reflexivity.
    + intros _ Hmp. split; [apply Qle_refl | exact Hmp].
  - apply orb_false_elim in Hc as [Hs Hd]. apply negb_false_iff in Hs, Hd.
    destruct (calculate_late_penalty_returned _ _ _ _ _ _ Hs Hd H)
      as (sb & du & _ & _ & _ & _ & ->).
    cbv zeta. cbn [days_late penalty]. split; [lia |]. split.
    + intros Hmp Hz. rewrite Hz.
      assert (Hzero : (r * inject_Z 0 == 0)%Q) by (unfold inject_Z; ring).
      rewrite Hzero. apply Q.min_r. exact Hmp.
    + intros Hr Hmp. apply penalty_bounds; [assumption | assumption | lia].
Qed.

Lemma late_penalty_result_range_witness :
  exists p,
    calculate_late_penalty (Some "2024-01-20T00:00:00Z") due_jan_10 0.1 0.5
    = ret p
    /\ 0 <= days_late p /\ (0 <= penalty p <= 0.5)%Q.
Proof.
  eexists. split; [vm_compute; reflexivity |].
  edestruct (late_penalty_result_range (Some "2024-01-20T00:00:00Z") due_jan_10
               0.1 0.5 []) as (Hd & _ & Hp).
  - vm_compute. reflexivity.
  - split; [exact Hd |]. apply Hp; discriminate.
Defined.

Lemma falsy_iso v : truthy_str v = false -> iso v = "".
Proof. destruct v as [[| c s] |]; cbn; [reflexivity | discriminate | reflexivity]. Qed.

Lemma fromisoformat_empty dt : fromisoformat "" <> ret dt.
Proof. discriminate. Qed.

Lemma penalty_monotonic_in_days r mp d1 d2 :
  (0 <= r)%Q -> d1 <= d2 ->
  (Qmin mp (r * inject_Z d1) <= Qmin mp (r * inject_Z d2))%Q.
Proof.
  intros Hr Hd. apply Q.min_le_compat_l.
  rewrite !(Qmult_comm r). apply Qmult_le_compat_r; [| exact Hr].
  rewrite <- Zle_Qle. exact Hd.
Qed.

(** A later submission is never charged less: against the same due
    date and with a rate that is not negative, of two submissions that
    both get a result, the one whose timestamp is the later instant has
    at least as many days late and at least as large a penalty. *)
Theorem later_submission_no_smaller_penalty
    (s1 s2 d : pystr) (r mp : Q) (out1 out2 : list event)
    (p1 p2 : PenaltyResult) (sub1 sub2 : datetime) :
  calculate_late_penalty s1 d r mp = (out1, inr p1) ->
  calculate_late_penalty s2 d r mp = (out2, inr p2) ->
  fromisoformat (iso s1) = ret sub1 ->
  fromisoformat (iso s2) = ret sub2 ->
  instant_us sub1 <= instant_us sub2 ->
  (0 <= r)%Q ->
  days_late p1 <= days_late p2 /\ (penalty p1 <= penalty p2)%Q.
Proof.
  intros H1 H2 Hp1 Hp2 Hle Hr.
  assert (Hs1 : truthy_str s1 = true).
  { destruct (truthy_str s1) eqn:E; [reflexivity |].
    apply falsy_iso in E. rewrite E in Hp1. discriminate. }
  assert (Hs2 : truthy_str s2 = true).
  { destruct (truthy_str s2) eqn:E; [reflexivity |].
    apply falsy_iso in E. rewrite E in Hp2. discriminate. }
  destruct (truthy_str d) eqn:Hd.
  - destruct (calculate_late_penalty_returned _ _ _ _ _ _ Hs1 Hd H1)
      as (sb1 & du1 & Hq1 & Hqd1 & _ & _ & ->).
    destruct (calculate_late_penalty_returned _ _ _ _ _ _ Hs2 Hd H2)
      as (sb2 & du2 & Hq2 & Hqd2 & _ & _ & ->).
    rewrite Hp1 in Hq1. injection Hq1 as <-.
    rewrite Hp2 in Hq2. injection Hq2 as <-.
    rewrite Hqd1 in Hqd2. injection Hqd2 as <-.
    cbv zeta. cbn [days_late penalty].
    assert (Hdays : Z.max 0 ((instant_us sub1 - instant_us du1) / us_per_day)
                    <= Z.max 0 ((instant_us sub2 - instant_us du1) / us_per_day)).
    { apply Z.max_le_compat_l. apply Z.div_le_mono; [reflexivity | lia]. }
    split; [exact Hdays | apply penalty_monotonic_in_days; assumption].
  - assert (Hc : forall s, negb (truthy_str s) || negb (truthy_str d) = true)
      by (intros s; rewrite Hd; apply orb_true_r).
    rewrite (calculate_late_penalty_missing _ _ _ _ (Hc s1)) in H1.
    rewrite (calculate_late_penalty_missing _ _ _ _ (Hc s2)) in H2.
    injection H1 as _ <-. injection H2 as _ <-. cbn.
    split; [lia | apply Qle_refl].
Qed.

Lemma later_submission_no_smaller_penalty_witness :
  exists p1 p2,
    calculate_late_penalty (Some "2024-01-11T08:00:00+02:00") due_jan_10 0.1 0.5
    = ret p1
    /\ calculate_late_penalty (Some "2024-01-13T00:00:00Z") due_jan_10 0.1 0.5
       = ret p2
    /\ days_late p1 <= days_late p2 /\ (penalty p1 <= penalty p2)%Q.
Proof.
  do 2 eexists. split; [vm_compute; reflexivity |].
  split; [vm_compute; reflexivity |].
  eapply (later_submission_no_smaller_penalty
            (Some "2024-01-11T08:00:00+02:00") (Some "2024-01-13T00:00:00Z")
            due_jan_10 0.1 0.5 [] []).
  - vm_compute. reflexivity.
  - vm_compute. reflexivity.
  - vm_compute. reflexivity.
  - vm_compute. reflexivity.
  - vm_compute. discriminate.
  - discriminate.
Defined.

(** ** The UTC marker *)

Lemma str_replace_Z_again s :
  str_replace "Z" "+00:00" (str_replace "Z" "+00:00" s)
  = str_replace "Z" "+00:00" s.
Proof.
  induction s as [| c s IH]; [reflexivity |].
  cbn [str_replace]. destruct (Ascii.eqb c "Z") eqn:Hc.
  - cbn. rewrite IH. reflexivity.
  - cbn [str_replace]. rewrite Hc, IH. reflexivity.
Qed.

Lemma str_replace_Z_truthy s :
  truthy_str (Some (str_replace "Z" "+00:00" s)) = truthy_str (Some s).
Proof.
  destruct s as [| c s]; [reflexivity |].
  cbn [str_replace]. destruct (Ascii.eqb c "Z"); reflexivity.
Qed.

(** The marker "Z" is read as the offset "+00:00": when both timestamps
    are present, writing the offset out in place of every "Z" changes
    neither what the call returns or raises nor what it prints. *)
Theorem utc_marker_is_zero_offset (s d : string) (r mp : Q) :
  s <> "" -> d <> "" ->
  calculate_late_penalty (Some (str_replace "Z" "+00:00" s))
    (Some (str_replace "Z" "+00:00" d)) r mp
  = calculate_late_penalty (Some s) (Some d) r mp.
Proof.
  intros Hs Hd. unfold calculate_late_penalty.
  rewrite !str_replace_Z_truthy, (present_truthy s Hs), (present_truthy d Hd).
  cbn [negb orb str_of]. rewrite !str_replace_Z_again. reflexivity.
Qed.

Lemma utc_marker_is_zero_offset_witness :
  calculate_late_penalty (Some "2024-01-13T00:00:00+00:00")
    (Some "2024-01-10T00:00:00+00:00") 0.1 0.5
  = calculate_late_penalty (Some "2024-01-13T00:00:00Z")
      (Some "2024-01-10T00:00:00Z") 0.1 0.5.
Proof.
  apply (utc_marker_is_zero_offset "2024-01-13T00:00:00Z" "2024-01-10T00:00:00Z"
           0.1 0.5); discriminate.
Defined.

(** ** What a category returns, raises and prints *)

Lemma In_firstn {A} (a : A) n l : In a (firstn n l) -> In a l.
Proof.
  revert l. induction n as [| n IH]; intros [| x l]; cbn; try contradiction.
  intros [-> | H]; [left; reflexivity | right; apply IH, H].
Qed.

Lemma counted_incl drops all a : In a (counted drops all) -> In a all.
Proof.
  unfold counted, drop_last. destruct (0 <? drops); [| auto].
  intros H. apply In_firstn in H.
  eapply Permutation_in; [symmetry; apply sort_desc_perm | exact H].
Qed.

Lemma process_assignment_category_inv category scs dd w r mp drops out ws t :
  process_assignment_category category scs dd w r mp drops = (out, inr (ws, t)) ->
  exists all,
    score_assignments scs dd r mp [] = (out, inr all)
    /\ counted drops all <> []
    /\ t = mkTable (str_title category) (counted drops all)
    /\ ws = (average (counted drops all) * w)%Q.
Proof.
  intros H.
  destruct (score_assignments scs dd r mp []) as [out1 [e | all]] eqn:Hall.
  - unfold process_assignment_category in H. rewrite Hall in H. discriminate.
  - rewrite (process_assignment_category_counted _ _ _ _ _ _ _ _ _ Hall) in H.
    destruct (counted drops all) as [| a kept] eqn:Hc; [discriminate |].
    injection H as <- <- <-. exists all. rewrite Hc.
    repeat split. discriminate.
Qed.

Lemma score_assignments_output scs dd r mp : forall acc out res,
  score_assignments scs dd r mp acc = (out, inr res) ->
  out = category_warnings dd scs.
Proof.
  induction scs as [| [n a] scs IH]; intros acc out res H.
  - cbn in H. injection H as <- _. reflexivity.
  - cbn [score_assignments] in H.
    apply bind_inr in H as (out1 & pen & out2 & Hpen & Hrest & ->).
    apply IH in Hrest as ->.
    unfold category_warnings. cbn [flat_map]. f_equal.
    rewrite <- calculate_late_penalty_output with (r := r) (mp := mp).
    unfold entry_due. cbn [fst snd]. rewrite Hpen. reflexivity.
Qed.

Lemma score_assignments_exn scs dd r mp : forall acc out e,
  score_assignments scs dd r mp acc = (out, inl e) ->
  (exists msg, e = ValueError msg) \/ (exists msg, e = TypeError msg).
Proof.
  induction scs as [| [n a] scs IH]; intros acc out e H.
  - discriminate.
  - cbn [score_assignments] in H.
    set (due := match dict_get n dd with Some d => d | None => Some "" end) in H.
    destruct (calculate_late_penalty_cases (submitted_at a) due r mp)
      as [[_ E] | (_ & _ & [(msg & _ & E) | [(sb & msg & _ & _ & E)
           | [(sb & du & msg & _ & _ & _ & E) | (sb & du & _ & _ & _ & E)]]])];
      cbv zeta in E; rewrite E in H.
    + unfold bind at 1 in H.
      destruct (score_assignments scs dd r mp _) as [o2 [e2 | v2]] eqn:Hr;
        [| discriminate].
      injection H as _ <-. eapply IH, Hr.
    + injection H as _ <-. left. eauto.
    + injection H as _ <-. left. eauto.
    + injection H as _ <-. right. eauto.
    + rewrite bind_ret_l in H. eapply IH, H.
Qed.

Lemma counted_empty drops all :
  counted drops all = [] -> Z.of_nat (List.length all) <= Z.max 0 drops.
Proof.
  unfold counted, drop_last. destruct (Z.ltb_spec 0 drops) as [Hpos | Hnpos].
  - intros H. apply (f_equal (@List.length _)) in H.
    rewrite length_firstn, sort_desc_length in H. cbn in H. lia.
  - intros ->. cbn. lia.
Qed.

Lemma process_assignment_category_exn
    (category : string) (scs : dict Submission) (dd : dict pystr)
    (w r mp : Q) (k : Z) (out : list event) (e : exn) :
  process_assignment_category category scs dd w r mp k = (out, inl e) ->
  (exists msg, e = ValueError msg)
  \/ (exists msg, e = TypeError msg)
  \/ (e = ZeroDivisionError
      /\ Z.of_nat (List.length scs) <= Z.max 0 k
      /\ exists all, score_assignments scs dd r mp [] = (out, inr all)).
Proof.
  intros H.
  destruct (score_assignments scs dd r mp []) as [out1 [e1 | all]] eqn:Hall.
  - unfold process_assignment_category in H. rewrite Hall in H.
    injection H as _ <-.
    destruct (score_assignments_exn _ _ _ _ _ _ _ Hall) as [He | He]; auto.
  - rewrite (process_assignment_category_counted _ _ _ _ _ _ _ _ _ Hall) in H.
    destruct (counted k all) as [| a kept] eqn:Hc; [| discriminate].
    injection H as <- <-. right. right. split; [reflexivity |].
    rewrite <- (score_assignments_length _ _ _ _ _ _ Hall).
    split; [apply counted_empty, Hc | eauto].
Qed.

(** The division of a category fails only when nothing is left to
    count: a [ZeroDivisionError] comes after every assignment was scored,
    and only when the number of assignments is at most the number of
    drops, or the mapping is empty when the drops are zero or negative. *)
Theorem category_division_fails_only_when_emptied
    (category : string) (scs : dict Submission) (dd : dict pystr)
    (w r mp : Q) (k : Z) (out : list event) :
  process_assignment_category category scs dd w r mp k
  = (out, inl ZeroDivisionError) ->
  Z.of_nat (List.length scs) <= Z.max 0 k
  /\ exists all,
       score_assignments scs dd r mp [] = (out, inr all)
       /\ counted k all = [].
Proof.
  intros H.
  destruct (process_assignment_category_exn _ _ _ _ _ _ _ _ _ H)
    as [[msg He] | [[msg He] | (_ & Hn & all & Hall)]]; try discriminate.
  split; [exact Hn |]. exists all. split; [exact Hall |].
  rewrite (process_assignment_category_counted _ _ _ _ _ _ _ _ _ Hall) in H.
  destruct (counted k all); [reflexivity | discriminate].
Qed.

Lemma category_division_fails_only_when_emptied_witness :
  process_assignment_category "quizzes" example_quizzes example_due
    0.2 0.1 0.5 5 = ([], inl ZeroDivisionError)
  /\ Z.of_nat (List.length example_quizzes) <= Z.max 0 5.
Proof.
  split; [vm_compute; reflexivity |].
  apply (category_division_fails_only_when_emptied "quizzes" example_quizzes
           example_due 0.2 0.1 0.5 5 []).
  vm_compute. reflexivity.
Defined.

(** A category that returns has printed one missing-date warning for
    each assignment whose submission time or due date is missing, in the
    order of the assignments, and nothing else. *)
Theorem category_prints_missing_dates
    (category : string) (scs : dict Submission) (dd : dict pystr)
    (w r mp : Q) (k : Z) (out : list event) (res : Q * Table) :
  process_assignment_category category scs dd w r mp k = (out, inr res) ->
  out = category_warnings dd scs.
Proof.
  destruct res as [ws t]. intros H.
  apply process_assignment_category_inv in H as (all & Hall & _).
  eapply score_assignments_output, Hall.
Qed.

Lemma category_prints_missing_dates_witness :
  exists out res,
    process_assignment_category "quizzes" undated_quizzes example_due
      0.2 0.1 0.5 0 = (out, inr res)
    /\ out = category_warnings example_due undated_quizzes
    /\ category_warnings example_due undated_quizzes
       = [Stderr "Warning: Missing date - submitted: 2024-01-09T00:00:00Z, due: ";
          Stderr "Warning: Missing date - submitted: None, due: 2024-01-10T00:00:00Z"].
Proof.
  do 2 eexists. split; [vm_compute; reflexivity |]. split; [| reflexivity].
  eapply (category_prints_missing_dates "quizzes" undated_quizzes example_due
            0.2 0.1 0.5 0).
  vm_compute. reflexivity.
Defined.




(** ** Turning the penalty off *)

Lemma calculate_late_penalty_disabled s d r mp out pen :
  ((r == 0)%Q /\ (0 <= mp)%Q) \/ ((mp == 0)%Q /\ (0 <= r)%Q) ->
  calculate_late_penalty s d r mp = (out, inr pen) ->
  (penalty pen == 0)%Q.
Proof.
  intros Hoff H.
  destruct (negb (truthy_str s) || negb (truthy_str d)) eqn:Hc.
  - rewrite (calculate_late_penalty_missing _ _ _ _ Hc) in H.
    injection H as _ <-. reflexivity.
  - apply orb_false_elim in Hc as [Hs Hd]. apply negb_false_iff in Hs, Hd.
    destruct (calculate_late_penalty_returned _ _ _ _ _ _ Hs Hd H)
      as (sb & du & _ & _ & _ & _ & ->).
    cbv zeta. cbn [penalty].
    set (days := Z.max 0 _).
    assert (Hdays : (0 <= inject_Z days)%Q).
    { change 0%Q with (inject_Z 0). rewrite <- Zle_Qle. subst days. lia. }
    destruct Hoff as [[Hr Hmp] | [Hmp Hr]].
    + assert (Hz : (r * inject_Z days == 0)%Q) by (rewrite Hr; ring).
      rewrite Q.min_r; [exact Hz | rewrite Hz; exact Hmp].
    + rewrite Q.min_l; [exact Hmp |].
      rewrite Hmp. apply Qmult_le_0_compat; assumption.
Qed.

(** A rate of zero, or a maximum penalty of zero, turns the late penalty
    off: every assignment of the category keeps its original score,
    however late it is. *)
Theorem zero_rate_or_maximum_disables_penalty
    (scs : dict Submission) (dd : dict pystr) (r mp : Q)
    (out : list event) (all : list AssignmentScore) :
  ((r == 0)%Q /\ (0 <= mp)%Q) \/ ((mp == 0)%Q /\ (0 <= r)%Q) ->
  score_assignments scs dd r mp [] = (out, inr all) ->
  Forall (fun a => (adjusted_score a == original_score a)%Q) all.
Proof.
  intros Hoff Hall. apply score_assignments_scored in Hall.
  induction Hall as [| entry a scs all (o & pen & Hpen & ->) _ IH];
    constructor; [| exact IH].
  cbn [adjusted_score original_score].
  rewrite (calculate_late_penalty_disabled _ _ _ _ _ _ Hoff Hpen). ring.
Qed.

Lemma zero_rate_or_maximum_disables_penalty_witness :
  exists all,
    score_assignments (late_quiz 90) example_due 0 0.5 [] = ([], inr all)
    /\ Forall (fun a => (adjusted_score a == original_score a)%Q) all.
Proof.
  eexists. split; [vm_compute; reflexivity |].
  apply (zero_rate_or_maximum_disables_penalty (late_quiz 90) example_due
           0 0.5 []).
  - left. split; [reflexivity | discriminate].
  - vm_compute. reflexivity.
Defined.

(** ** The stages of the pipeline *)

(** A category stage has four outcomes.  It is skipped, with its
    warning and nothing printed, when the category is absent from the
    grades or empty, or its weight is absent or zero.  Otherwise the
    due dates of the category must be in the policy, or the stage raises
    a [KeyError]; the failure of the category is the failure of the
    stage; and the weighted score of the category is added to the total
    and printed with its table, with no warning. *)
Theorem category_stage_outcomes
    (category : string) (cs : option (dict Submission))
    (cd : option (dict pystr)) (k : Z) (policy : Policy)
    (total : Q) (warnings : list string) :
  (cs = None \/ cs = Some []
   \/ dict_get category (weights policy) = None
   \/ (exists weight, dict_get category (weights policy) = Some weight
                      /\ (weight == 0)%Q) ->
   category_stage category cs cd k policy (total, warnings)
   = ([], inr (total, warnings ++ [missing_data category])))
  /\ (forall sc weight,
         cs = Some sc -> sc <> [] ->
         dict_get category (weights policy) = Some weight ->
         ~ (weight == 0)%Q ->
         (cd = None ->
          category_stage category cs cd k policy (total, warnings)
          = ([], inl (KeyError category)))
         /\ (forall due out e,
                cd = Some due ->
                process_assignment_category category sc due weight
                  (rate (late_penalty policy))
                  (max_penalty (late_penalty policy)) k = (out, inl e) ->
                category_stage category cs cd k policy (total, warnings)
                = (out, inl e))
         /\ (forall due out cat_score cat_table,
                cd = Some due ->
                process_assignment_category category sc due weight
                  (rate (late_penalty policy))
                  (max_penalty (late_penalty policy)) k
                = (out, inr (cat_score, cat_table)) ->
                category_stage category cs cd k policy (total, warnings)
                = (out ++ [CategoryHeading category; TableOut cat_table;
                           WeightLine category weight;
                           ContributionLine cat_score],
                   inr ((total + cat_score)%Q, warnings)))).
Proof.
  split.
  - intros H. unfold category_stage, missing_data.
    destruct cs as [sc |]; [| reflexivity].
    destruct (dict_get category (weights policy)) as [weight |];
      [| reflexivity].
    destruct H as [H | [H | [H | (w' & Hw & Hz)]]]; try discriminate.
    + injection H as ->. reflexivity.
    + injection Hw as <-. cbn [truthy_weight].
      apply Qeq_bool_iff in Hz. rewrite Hz, andb_false_r. reflexivity.
  - intros sc weight -> Hne Hw Hnz. unfold category_stage. rewrite Hw.
    assert (Ht : truthy_dict (Some sc) && truthy_weight (Some weight) = true).
    { destruct sc; [congruence |]. cbn.
      destruct (Qeq_bool weight 0) eqn:Hz; [| reflexivity].
      apply Qeq_bool_iff in Hz. contradiction. }
    rewrite Ht. split; [| split].
    + intros ->. reflexivity.
    + intros due out e -> Hp. cbn [subscript]. rewrite bind_ret_l.
      rewrite (bind_exn _ _ _ _ Hp). reflexivity.
    + intros due out cat_score cat_table -> Hp. cbn [subscript].
      rewrite bind_ret_l. rewrite (bind_value _ _ _ _ Hp). reflexivity.
Qed.

Lemma category_stage_outcomes_witness :
  category_stage "homework" (Some []) None 0 (example_policy 0.3) (0%Q, [])
  = ([], inr (0%Q, ["Missing homework data"]))
  /\ category_stage "quizzes" (Some example_quizzes) None 1
       (example_policy 0.3) (0%Q, [])
     = ([], inl (KeyError "quizzes")).
Proof.
  pose proof (category_stage_outcomes "homework" (Some []) None 0
                (example_policy 0.3) 0 []) as [Hskip _].
  pose proof (category_stage_outcomes "quizzes" (Some example_quizzes) None 1
                (example_policy 0.3) 0 []) as [_ Hrun].
  split.
  - apply Hskip. right. left. reflexivity.
  - apply (Hrun example_quizzes 0.2%Q);
      [reflexivity | discriminate | reflexivity | discriminate | reflexivity].
Defined.

(** A project without a due date in the policy, or with an empty one,
    is not an error and is not penalised: the stage prints the
    missing-date warning, counts 0 days late and adds the full
    [score * weight] to the total. *)
Theorem project_without_due_date_gets_full_credit
    (sc : Scores) (policy : Policy) (total : Q) (warnings : list string)
    (proj : Submission) (weight : Q) :
  project sc = Some proj ->
  dict_get "project" (weights policy) = Some weight ->
  ~ (weight == 0)%Q ->
  due_project (due_dates policy) = None
  \/ missing (project_due policy) ->
  exists contribution,
    project_stage sc policy (total, warnings)
    = ([Stderr (missing_date_warning (submitted_at proj) (project_due policy));
        ProjectHeading; OriginalScoreLine (score proj); DaysLateLine 0;
        WeightLine "project" weight; ContributionLine contribution],
       inr ((total + contribution)%Q, warnings))
    /\ (contribution == score proj * weight)%Q.
Proof.
  intros Hp Hw Hnz Hdue.
  assert (Hm : truthy_str (project_due policy) = false).
  { destruct Hdue as [Hdue | Hdue]; [| apply missing_falsy, Hdue].
    unfold project_due. rewrite Hdue. reflexivity. }
  unfold project_stage. rewrite Hp, Hw. cbn [truthy_weight].
  destruct (Qeq_bool weight 0) eqn:Hz;
    [apply Qeq_bool_iff in Hz; contradiction |].
  cbn [negb].
  rewrite calculate_late_penalty_missing
    by (rewrite Hm; apply orb_true_r).
  eexists. split; [reflexivity |]. cbn [penalty]. ring.
Qed.

Lemma project_without_due_date_gets_full_credit_witness :
  exists contribution out,
    project_stage (example_scores (Some late_project))
      (mkPolicy [("project", 0.3%Q)] (mkDueDates None None None None)
         (mkLatePenalty 0.1 0.5) None None) (0%Q, [])
    = (out, inr ((0 + contribution)%Q, []))
    /\ (contribution == 90 * 0.3)%Q.
Proof.
  edestruct (project_without_due_date_gets_full_credit
               (example_scores (Some late_project))
               (mkPolicy [("project", 0.3%Q)] (mkDueDates None None None None)
                  (mkLatePenalty 0.1 0.5) None None) 0 [] late_project 0.3)
    as (c & Hrun & Hc).
  - reflexivity.
  - reflexivity.
  - discriminate.
  - left. reflexivity.
  - exists c. eexists. split; [exact Hrun | exact Hc].
Defined.

(** ** The report *)

Lemma print_warnings_lines msgs :
  print_warnings msgs = (map WarningLine msgs, inr tt).
Proof.
  induction msgs as [| msg msgs IH]; [reflexivity |].
  cbn [print_warnings map]. rewrite IH. reflexivity.
Qed.

(** The end of [calculate_grade], from the state that the four stages
    leave. *)
Lemma report_of_state policy (st : pipeline_state) out rep :
  (let '(total_score, warning_messages) := st in
   let letter_grade := resolve_letter_grade total_score policy in
   emit SummaryHeading ;;;
   emit (FinalScoreLine total_score) ;;;
   emit (LetterGradeLine letter_grade) ;;;
   emit PolicyHeading ;;;
   emit (LatePenaltyRateLine (rate (late_penalty policy))) ;;;
   emit (MaxLatePenaltyLine (max_penalty (late_penalty policy))) ;;;
   emit (QuizDropsLine (quiz_drops policy)) ;;;
   (match warning_messages with
    | [] => ret tt
    | _ => emit WarningsHeading ;;; print_warnings warning_messages
    end) ;;;
   ret (mkReport total_score letter_grade warning_messages)) = (out, inr rep) ->
  rep = mkReport (fst st) (resolve_letter_grade (fst st) policy) (snd st)
  /\ out = report_tail policy rep.
Proof.
  destruct st as [total warnings]. cbn [fst snd]. unfold report_tail.
  destruct warnings as [| msg msgs].
  - cbn. intros H. injection H as <- <-. split; reflexivity.
  - rewrite print_warnings_lines. cbn. rewrite app_nil_r.
    intros H. injection H as <- <-. split; reflexivity.
Qed.

(** Once the grades have a scores section the header is the first thing
    printed, whether the run then returns or raises; and a run that
    returns has printed, last, the summary with the total and with the
    letter resolved from that total, the policy, and every warning of
    the report in order under a heading, or no warnings part when there
    is none. *)
Theorem report_header_and_tail (g : Grades) (sc : Scores) (policy : Policy) :
  scores g = Some sc ->
  (exists rest,
      output (calculate_grade (Some g) policy)
      = ReportHeader (default "N/A" (student_name g))
                     (default "N/A" (student_id g)) :: rest)
  /\ (forall out rep,
         calculate_grade (Some g) policy = (out, inr rep) ->
         letter_grade rep = resolve_letter_grade (total_score rep) policy
         /\ exists body,
              out = ReportHeader (default "N/A" (student_name g))
                                 (default "N/A" (student_id g))
                    :: body ++ report_tail policy rep).
Proof.
  intros Hsc. unfold calculate_grade. rewrite Hsc. split.
  - unfold bind at 1. cbn [emit].
    match goal with
    | |- context [let '(out', r) := ?m in _] => destruct m as [o r]
    end.
    exists o. reflexivity.
  - intros out rep H.
    apply bind_inr in H as (o0 & [] & o0' & H0 & H & ->).
    injection H0 as <-.
    apply bind_inr in H as (o1 & st1 & o1' & _ & H & ->).
    apply bind_inr in H as (o2 & st2 & o2' & _ & H & ->).
    apply bind_inr in H as (o3 & st3 & o3' & _ & H & ->).
    apply bind_inr in H as (o4 & st4 & o4' & _ & H & ->).
    apply report_of_state in H as [-> ->]. split; [reflexivity |].
    exists (o1 ++ o2 ++ o3 ++ o4). cbn [app].
    rewrite <- !app_assoc. reflexivity.
Qed.

Lemma report_header_and_tail_witness :
  exists out rep body,
    calculate_grade example_grades (example_policy 0.3) = (out, inr rep)
    /\ out = ReportHeader "Ada" "42" :: body
                                        ++ report_tail (example_policy 0.3) rep.
Proof.
  pose proof (report_header_and_tail
                (mkGrades (Some "Ada") (Some "42")
                   (Some (example_scores (Some late_project))))
                (example_scores (Some late_project)) (example_policy 0.3)
                eq_refl) as [_ H].
  destruct (calculate_grade example_grades (example_policy 0.3))
    as [out [e | rep]] eqn:Hrun.
  - vm_compute in Hrun. discriminate Hrun.
  - destruct (H out rep Hrun) as [_ [body Hb]].
    exists out, rep, body. split; [reflexivity | exact Hb].
Defined.

Lemma bind_emit {B} (ev : event) (f : unit -> M B) :
  bind (emit ev) f = (ev :: fst (f tt), snd (f tt)).
Proof. unfold bind, emit. destruct (f tt). reflexivity. Qed.

Lemma category_stage_falsy category cs cd k policy total warnings :
  truthy_dict cs = false ->
  category_stage category cs cd k policy (total, warnings)
  = ret (total, warnings ++ [missing_data category]).
Proof.
  intros H. unfold category_stage, missing_data.
  destruct cs as [[| entry sc] |]; try discriminate;
    destruct (dict_get category (weights policy)); reflexivity.
Qed.

(** With a scores section that has no project and in which every
    category is absent or empty, the run returns a total of 0, the
    letter that 0 resolves to, and the four warnings, whatever the
    policy. *)
Theorem empty_scores_give_zero_and_all_warnings
    (g : Grades) (sc : Scores) (policy : Policy) :
  scores g = Some sc ->
  project sc = None ->
  truthy_dict (quizzes sc) = false ->
  truthy_dict (homework sc) = false ->
  truthy_dict (reflections sc) = false ->
  exists out,
    calculate_grade (Some g) policy
    = (out, inr (mkReport 0 (resolve_letter_grade 0 policy) stage_warnings)).
Proof.
  intros H Hp Hq Hh Hr. unfold calculate_grade. rewrite H.
  assert (Hps : project_stage sc policy (0%Q, [])
                = ret (0%Q, ["Missing project data"])).
  { unfold project_stage. rewrite Hp. reflexivity. }
  rewrite bind_emit, Hps, bind_ret_l.
  rewrite (category_stage_falsy _ _ _ _ _ _ _ Hq), bind_ret_l.
  rewrite (category_stage_falsy _ _ _ _ _ _ _ Hh), bind_ret_l.
  rewrite (category_stage_falsy _ _ _ _ _ _ _ Hr), bind_ret_l.
  eexists. cbn -[resolve_letter_grade]. reflexivity.
Qed.

Lemma empty_scores_give_zero_and_all_warnings_witness :
  exists out,
    calculate_grade
      (Some (mkGrades None None (Some (mkScores None (Some []) None (Some [])))))
      (example_policy 0.3)
    = (out, inr (mkReport 0 "F" stage_warnings)).
Proof.
  apply (empty_scores_give_zero_and_all_warnings
           (mkGrades None None (Some (mkScores None (Some []) None (Some []))))
           (mkScores None (Some []) None (Some [])) (example_policy 0.3));
    reflexivity.
Defined.

(** ** The letter and the order of the scale *)

Lemma resolve_highest_reached total policy :
  highest_reached total (scale_items policy) (resolve_letter_grade total policy)
  \/ ((forall g m, In (g, m) (scale_items policy) -> (total < m)%Q)
      /\ resolve_letter_grade total policy = "F").
Proof.
  rewrite resolve_letter_grade_items.
  pose proof (sort_desc_perm snd (scale_items policy)) as Hperm.
  pose proof (sort_desc_descending snd (scale_items policy)) as Hdesc.
  set (sorted := sort_desc snd (scale_items policy)) in *.
  destruct (first_reached_split total sorted "F")
    as [(pre & g & m & post & Hs & Hpre & Hm & Hg) | [Hall Hf]].
  - left. rewrite Hg. exists m. split; [| split; [exact Hm |]].
    + eapply Permutation_in; [symmetry; exact Hperm |].
      rewrite Hs. apply in_or_app. right. left. reflexivity.
    + intros g' m' Hin Hle.
      apply (Permutation_in _ Hperm) in Hin. rewrite Hs in Hin.
      apply in_app_or in Hin as [Hin | [Hin | Hin]].
      * rewrite Forall_forall in Hpre. apply Hpre in Hin.
        unfold above in Hin. cbn [snd] in Hin.
        exfalso. apply (Qlt_irrefl total).
        eapply Qlt_le_trans; eassumption.
      * injection Hin as _ <-. apply Qle_refl.
      * rewrite Hs in Hdesc.
        replace (pre ++ (g, m) :: post) with ((pre ++ [(g, m)]) ++ post)
          in Hdesc by (rewrite <- app_assoc; reflexivity).
        apply (descending_app_le snd _ _ (g, m) (g', m') Hdesc);
          [apply in_or_app; right; left; reflexivity | exact Hin].
  - right. split; [| exact Hf].
    intros g m Hin. apply (Permutation_in _ Hperm) in Hin.
    rewrite Forall_forall in Hall. apply (Hall _ Hin).
Qed.

(** The letter is the one of the highest minimum that the total
    reaches: its entry is in the scale, its minimum is at most the
    total, and no entry that the total reaches has a higher minimum; and
    it is "F" when the total is below every minimum of the scale. *)
Theorem letter_of_highest_minimum_reached (total : Q) (policy : Policy) :
  highest_reached total (scale_items policy) (resolve_letter_grade total policy)
  \/ ((forall g m, In (g, m) (scale_items policy) -> (total < m)%Q)
      /\ resolve_letter_grade total policy = "F").
Proof. apply resolve_highest_reached. Qed.

(** The order in which the policy lists the entries of the scale does
    not matter when no two letters have the same minimum: two policies
    whose scales are rearrangements of one another resolve every total to
    the same letter. *)
Theorem letter_independent_of_scale_order (total : Q) (p1 p2 : Policy) :
  Permutation (scale_items p1) (scale_items p2) ->
  distinct_minimums (scale_items p1) ->
  resolve_letter_grade total p1 = resolve_letter_grade total p2.
Proof.
  intros Hperm Hdist.
  destruct (resolve_highest_reached total p1)
    as [(m1 & Hin1 & Hle1 & Hmax1) | [Hall1 ->]],
     (resolve_highest_reached total p2)
    as [(m2 & Hin2 & Hle2 & Hmax2) | [Hall2 ->]].
  - apply (Hdist _ m1 _ m2); [exact Hin1 | |].
    + eapply Permutation_in; [symmetry; exact Hperm | exact Hin2].
    + apply Qle_antisym.
      * apply (Hmax2 (resolve_letter_grade total p1) m1); [| exact Hle1].
        eapply Permutation_in; [exact Hperm | exact Hin1].
      * apply (Hmax1 (resolve_letter_grade total p2) m2); [| exact Hle2].
        eapply Permutation_in; [symmetry; exact Hperm | exact Hin2].
  - exfalso. apply (Qlt_irrefl total).
    eapply Qlt_le_trans; [| exact Hle1].
    apply (Hall2 (resolve_letter_grade total p1)).
    eapply Permutation_in; [exact Hperm | exact Hin1].
  - exfalso. apply (Qlt_irrefl total).
    eapply Qlt_le_trans; [| exact Hle2].
    apply (Hall1 (resolve_letter_grade total p2)).
    eapply Permutation_in; [symmetry; exact Hperm | exact Hin2].
  - reflexivity.
Qed.

Lemma letter_independent_of_scale_order_witness :
  resolve_letter_grade 85 (example_policy 0.3)
  = resolve_letter_grade 85 reordered_policy.
Proof.
  apply (letter_independent_of_scale_order 85 (example_policy 0.3)
           reordered_policy).
  - cbn.
    apply Permutation_trans
      with (l' := [("F", 0%Q); ("A", 90%Q); ("B", 80%Q); ("C", 70%Q)]).
    + apply Permutation_sym.
      apply (Permutation_cons_app [("A", 90%Q); ("B", 80%Q); ("C", 70%Q)] []).
      reflexivity.
    + apply perm_skip.
      apply Permutation_sym.
      apply (Permutation_cons_app [("A", 90%Q); ("B", 80%Q)] []). reflexivity.
  - intros g1 m1 g2 m2 H1 H2 Hm. cbn in H1, H2.
    repeat (destruct H1 as [H1 | H1]; [injection H1 as <- <- |]);
      try contradiction;
      repeat (destruct H2 as [H2 | H2]; [injection H2 as <- <- |]);
      try contradiction;
      first [ reflexivity | exfalso; revert Hm; vm_compute; congruence ].
Defined.

(** ** The instant and the way it is written *)

Lemma sub_mixed_message a b :
  aware a <> aware b ->
  sub a b
  = raise (TypeError "can't subtract offset-naive and offset-aware datetimes").
Proof.
  unfold aware, sub, offset_eqb.
  destruct (tzinfo a), (tzinfo b); try congruence; intros _; reflexivity.
Qed.

(** The penalty depends on the instant of the submission, not on the
    offset in which it is written: two submission timestamps that parse
    to the same instant, both with an offset or both without, give the
    same outcome against every due date that is present. *)
Theorem penalty_depends_on_instant
    (s1 s2 d : string) (r mp : Q) (sub1 sub2 : datetime) :
  d <> "" ->
  fromisoformat (iso (Some s1)) = ret sub1 ->
  fromisoformat (iso (Some s2)) = ret sub2 ->
  aware sub1 = aware sub2 ->
  instant_us sub1 = instant_us sub2 ->
  calculate_late_penalty (Some s1) (Some d) r mp
  = calculate_late_penalty (Some s2) (Some d) r mp.
Proof.
  intros Hd Hp1 Hp2 Haw Hi.
  assert (Hs : forall s dt, fromisoformat (iso (Some s)) = ret dt ->
                            truthy_str (Some s) = true).
  { intros s dt Hp. destruct (truthy_str (Some s)) eqn:E; [reflexivity |].
    apply falsy_iso in E. rewrite E in Hp. discriminate. }
  unfold calculate_late_penalty.
  rewrite (Hs s1 sub1 Hp1), (Hs s2 sub2 Hp2), (present_truthy d Hd).
  cbn [negb orb]. unfold iso in Hp1, Hp2. rewrite Hp1, Hp2, !bind_ret_l.
  destruct (fromisoformat (str_replace "Z" "+00:00" (str_of (Some d))))
    as [o [e | due]] eqn:Hpd; [reflexivity |].
  rewrite !(bind_value _ _ o due eq_refl).
  destruct (sub_cases sub1 due) as [(Ha1 & delta1 & E1 & D1) | (Ha1 & _)].
  - destruct (sub_days sub2 due) as (delta2 & E2 & _ & D2); [congruence |].
    rewrite E1, E2, !bind_ret_l, D1, D2, Hi. reflexivity.
  - rewrite (sub_mixed_message sub1 due Ha1).
    rewrite (sub_mixed_message sub2 due) by congruence. reflexivity.
Qed.

Lemma penalty_depends_on_instant_witness :
  calculate_late_penalty (Some "2024-01-13T02:00:00+02:00")
    (Some "2024-01-10T00:00:00Z") 0.1 0.5
  = calculate_late_penalty (Some "2024-01-13T00:00:00Z")
      (Some "2024-01-10T00:00:00Z") 0.1 0.5.
Proof.
  eapply (penalty_depends_on_instant "2024-01-13T02:00:00+02:00"
            "2024-01-13T00:00:00Z" "2024-01-10T00:00:00Z" 0.1 0.5).
  - discriminate.
  - vm_compute. reflexivity.
  - vm_compute. reflexivity.
  - reflexivity.
  - reflexivity.
Defined.

(** ** Where a run can divide by zero *)

Lemma bind_inl {A B} (m : M A) (f : A -> M B) out e :
  bind m f = (out, inl e) ->
  m = (out, inl e)
  \/ exists out1 a out2,
       m = (out1, inr a) /\ f a = (out2, inl e) /\ out = out1 ++ out2.
Proof.
  unfold bind. destruct m as [out1 [e1 | a]].
  - intros H. injection H as <- <-. left. reflexivity.
  - destruct (f a) as [out2 r] eqn:Hf. intros H. injection H as <- ->.
    right. exists out1, a, out2. auto.
Qed.

Lemma project_stage_exn sc policy st out e :
  project_stage sc policy st = (out, inl e) ->
  (exists msg, e = ValueError msg) \/ (exists msg, e = TypeError msg).
Proof.
  destruct st as [total ws]. unfold project_stage.
  destruct (project sc) as [proj |]; [| discriminate].
  destruct (dict_get "project" (weights policy)) as [w |]; [| discriminate].
  destruct (truthy_weight (Some w)); [| discriminate].
  intros H. apply bind_inl in H as [H | (o1 & pen & o2 & _ & H & _)];
    [| discriminate].
  destruct (calculate_late_penalty_cases (submitted_at proj) (project_due policy)
              (rate (late_penalty policy)) (max_penalty (late_penalty policy)))
    as [[_ E] | (_ & _ & [(msg & _ & E) | [(sb & msg & _ & _ & E)
         | [(sb & du & msg & _ & _ & _ & E) | (sb & du & _ & _ & _ & E)]]])];
    cbv zeta in E; rewrite E in H; try discriminate;
    injection H as _ <-; eauto.
Qed.

Lemma category_stage_exn category cs cd k policy st out e :
  category_stage category cs cd k policy st = (out, inl e) ->
  exists sc,
    cs = Some sc /\ sc <> []
    /\ ((cd = None /\ e = KeyError category)
        \/ (exists msg, e = ValueError msg)
        \/ (exists msg, e = TypeError msg)
        \/ (e = ZeroDivisionError /\ Z.of_nat (List.length sc) <= Z.max 0 k)).
Proof.
  destruct st as [total ws]. unfold category_stage.
  destruct cs as [sc |]; [| discriminate].
  destruct (dict_get category (weights policy)) as [w |]; [| discriminate].
  destruct (truthy_dict (Some sc) && truthy_weight (Some w)) eqn:Ht;
    [| discriminate].
  intros H. exists sc. split; [reflexivity |]. split.
  { destruct sc; [discriminate Ht | discriminate]. }
  apply bind_inl in H as [H | (o1 & due & o2 & Hdue & H & _)].
  - destruct cd; [discriminate |]. injection H as _ <-. auto.
  - apply bind_inl in H as [H | (o3 & [cs' ct] & o4 & _ & H & _)];
      [| discriminate].
    apply process_assignment_category_exn in H
      as [He | [He | (He & Hn & _)]]; auto.
Qed.

(** Of the stages of a run only the quizzes can divide by zero: a run
    that raises [ZeroDivisionError] has quizzes, and a number of quiz
    drops that is at least their number.  Homework and reflections,
    which are never dropped and are skipped when empty, never do. *)
Theorem only_quiz_drops_divide_by_zero
    (g : Grades) (sc : Scores) (policy : Policy) (out : list event) :
  scores g = Some sc ->
  calculate_grade (Some g) policy = (out, inl ZeroDivisionError) ->
  exists qs,
    quizzes sc = Some qs /\ qs <> []
    /\ Z.of_nat (List.length qs) <= default 0 (quiz_drops policy).
Proof.
  intros Hsc H. unfold calculate_grade in H. rewrite Hsc in H.
  apply bind_inl in H as [H | (o0 & [] & o0' & _ & H & _)]; [discriminate |].
  apply bind_inl in H as [H | (o1 & st1 & o1' & _ & H & _)].
  { apply project_stage_exn in H as [[msg He] | [msg He]]; discriminate. }
  apply bind_inl in H as [H | (o2 & st2 & o2' & _ & H & _)].
  { apply category_stage_exn in H
      as (qs & Hq & Hne & [[_ He] | [[msg He] | [[msg He] | [_ Hn]]]]);
      try discriminate.
    exists qs. split; [exact Hq |]. split; [exact Hne |].
    destruct qs; [congruence | cbn [List.length] in *; lia]. }
  apply bind_inl in H as [H | (o3 & st3 & o3' & _ & H & _)].
  { apply category_stage_exn in H
      as (hs & _ & Hne & [[_ He] | [[msg He] | [[msg He] | [_ Hn]]]]);
      try discriminate.
    exfalso. destruct hs; [congruence | cbn [List.length] in Hn; lia]. }
  apply bind_inl in H as [H | (o4 & st4 & o4' & _ & H & _)].
  { apply category_stage_exn in H
      as (rs & _ & Hne & [[_ He] | [[msg He] | [[msg He] | [_ Hn]]]]);
      try discriminate.
    exfalso. destruct rs; [congruence | cbn [List.length] in Hn; lia]. }
  destruct st4 as [t4 w4].
  destruct w4 as [| msg msgs]; [discriminate H |].
  rewrite print_warnings_lines in H. discriminate H.
Qed.

Lemma only_quiz_drops_divide_by_zero_witness :
  exists out qs,
    calculate_grade example_grades all_quizzes_dropped
    = (out, inl ZeroDivisionError)
    /\ quizzes (example_scores (Some late_project)) = Some qs
    /\ Z.of_nat (List.length qs) <= default 0 (quiz_drops all_quizzes_dropped).
Proof.
  edestruct (only_quiz_drops_divide_by_zero
               (mkGrades (Some "Ada") (Some "42")
                  (Some (example_scores (Some late_project))))
               (example_scores (Some late_project)) all_quizzes_dropped)
    as (qs & Hq & _ & Hn).
  - reflexivity.
  - vm_compute. reflexivity.
  - eexists _, qs. split; [vm_compute; reflexivity |].
    split; [exact Hq | exact Hn].
Defined.
